(** * WaveRNN vocoder training driver: checkpoint protocol and training loop

    A shallow embedding of [train_wavernn.py]: [main], [voc_train_loop],
    [save_checkpoint] (with its local [helper]) and [restore_checkpoint].

    The Python code mutates one model object, one optimizer object and the
    file system, prints to the console and raises exceptions.  All of this is
    threaded through a single [World] by a state-and-exception monad [M]; an
    exception leaves the world as it was at the moment of the [raise], as in
    Python.

    What lies outside the file is kept abstract: network parameters,
    optimizer moments and floating-point scalars are opaque types, tensors
    are known by shape and element type, and the numerical routines are the
    fields of the class [Collaborators].  The file system holds the regular
    files written through [model.save] and [torch.save]; directory creation,
    console output, sample generation and logging appear as events of the
    trace.  Running loss and wall-clock speed, which only feed the progress
    line, are left out of it. *)

From Stdlib Require Import ZArith List String Lia DecimalString.
From Stdlib Require DecimalPos DecimalZ.
From stdpp Require Import base gmap strings list.

Local Open Scope Z_scope.

(** ** Paths *)

(** A [pathlib.Path] is kept as the list of its components ([Path.parts]). *)
Abbreviation path := (list string).

(** [Path.parent]: the path without its last component. *)
Definition parent (p : path) : path := removelast p.

(** [dir / name] for a one-component [name]. *)
Definition joinpath (dir : path) (name : string) : path := dir ++ [name].

(** The newline character. *)
Definition nl : string := String (Ascii.ascii_of_nat 10) "".

(** [str(p)], as interpolated in the messages. *)
Definition path_str (p : path) : string := String.concat "/" p.

(** The fields of [utils.paths.Paths] this file reads.  The class itself is
    not part of the file; its locations are taken as given. *)
Record Paths := {
  voc_latest_weights : path;
  voc_latest_optim : path;
  voc_checkpoints : path;
  voc_output : path;
  voc_log : path;
  data : path
}.

(** The two-entry dictionaries [{'w': ..., 'o': ...}]; [values()] yields the
    ['w'] entry first. *)
Record path_dict := { pd_w : path; pd_o : path }.

Definition latest_paths (paths : Paths) : path_dict :=
  {| pd_w := voc_latest_weights paths; pd_o := voc_latest_optim paths |}.

Definition named_paths (paths : Paths) (name : string) : path_dict :=
  {| pd_w := joinpath (voc_checkpoints paths) (name +:+ "_weights.pyt");
     pd_o := joinpath (voc_checkpoints paths) (name +:+ "_optim.pyt") |}.

(** Python truthiness of the [name] argument: [None] and [''] are false. *)
Definition truthy (name : option string) : bool :=
  match name with
  | Some (String _ _) => true
  | _ => false
  end.

Definition name_str (name : option string) : string := default "" name.

(** ** Exceptions and trace events *)

Inductive exn :=
| FileNotFoundError (msg : string)
| ValueError (msg : string)
| RuntimeError (msg : string)
| ZeroDivisionError
| AssertionError
| IndexError.

Inductive outcome (A : Type) :=
| Return (a : A)
| Raise (e : exn).
Arguments Return {A} a.
Arguments Raise {A} e.

(** Element types of tensors; values are not tracked, only shape and type. *)
Inductive dtype := Int64 | Float32.

Record Tensor := { shape : list Z; dt : dtype }.

(** The two objectives [main] chooses between. *)
Inductive loss_fn := cross_entropy | discretized_mix_logistic_loss.

(** What the program does to the outside world, in order. *)
Inductive event :=
| EvPrint (msg : string)
| EvMkdir (dir : path)
| EvModelSave (p : path)
| EvTorchSave (p : path)
| EvModelLoad (p : path)
| EvOptimLoad (p : path)
| EvForward (parallel : bool)
| EvLoss (f : loss_fn) (y_hat y : Tensor)
| EvZeroGrad
| EvBackward
| EvClipGradNorm
| EvOptimStep
| EvGenTestset (out : path)
| EvStream (e epochs i total_iters k : Z)
| EvLog (p : path)
| EvTable (remaining_k : Z).

Section Model.

(** Model parameters, optimizer moments and floating-point scalars are
    opaque payloads. *)
Context {W O float : Type}.

(** Modelled from the spec: the [WaveRNN] class of
    [models/fatchord_version.py] is not part of this file.  The model owns the
    step counter ([get_step()]) and its distribution [mode]; the counter is
    serialized as part of the weights artifact. *)
Record WaveRNN := { step : Z; mode : string; weights : W }.

Definition get_step (m : WaveRNN) : Z := step m.

(** The optimizer's [state_dict()]: the learning rate of its parameter group
    and the per-parameter state. *)
Record Adam := { lr : float; opt_state : O }.

(** Contents of a regular file. *)
Inductive blob :=
| WeightsFile (s : Z) (w : W)
| OptimFile (o : Adam).

Record World := {
  fs : gmap path blob;
  model : WaveRNN;
  optimizer : Adam;
  trace : list event
}.

Definition M (A : Type) : Type := World -> outcome A * World.

Definition ret {A} (a : A) : M A := fun w => (Return a, w).

Definition bind {A B} (c : M A) (k : A -> M B) : M B :=
  fun w => match c w with
           | (Return a, w') => k a w'
           | (Raise e, w') => (Raise e, w')
           end.

Definition raise {A} (e : exn) : M A := fun w => (Raise e, w).

Definition gets {A} (f : World -> A) : M A := fun w => (Return (f w), w).

Definition emit (ev : event) : M unit :=
  fun w => (Return tt,
            {| fs := fs w; model := model w; optimizer := optimizer w;
               trace := trace w ++ [ev] |}).

Definition set_fs (f : gmap path blob) : M unit :=
  fun w => (Return tt,
            {| fs := f; model := model w; optimizer := optimizer w;
               trace := trace w |}).

Definition set_model (m : WaveRNN) : M unit :=
  fun w => (Return tt,
            {| fs := fs w; model := m; optimizer := optimizer w;
               trace := trace w |}).

Definition set_optimizer (o : Adam) : M unit :=
  fun w => (Return tt,
            {| fs := fs w; model := model w; optimizer := o;
               trace := trace w |}).

End Model.

Arguments WaveRNN : clear implicits.
Arguments Adam : clear implicits.
Arguments blob : clear implicits.
Arguments World : clear implicits.
Arguments M : clear implicits.

Declare Scope py_scope.
Delimit Scope py_scope with py.
Notation "x <- c ;; k" := (bind c (fun x => k))
  (at level 100, c at next level, k at level 200, right associativity)
  : py_scope.
Notation "c ;; k" := (bind c (fun _ => k))
  (at level 100, k at level 200, right associativity) : py_scope.
Local Open Scope py_scope.

Section Checkpoints.

Context {W O float : Type}.
Abbreviation M := (M W O float).
Abbreviation World := (World W O float).

Definition print (msg : string) : M unit := emit (EvPrint msg).

(** [if not is_silent: print(msg)] *)
Definition print_unless (is_silent : bool) (msg : string) : M unit :=
  if is_silent then ret tt else print msg.

(** [p.exists()] *)
Definition path_exists (f : gmap path (blob W O float)) (p : path) : bool :=
  bool_decide (is_Some (f !! p)).

(** [sum(p.exists() for p in path_dict.values())] *)
Definition num_exist (f : gmap path (blob W O float)) (pd : path_dict) : Z :=
  Z.b2z (path_exists f (pd_w pd)) + Z.b2z (path_exists f (pd_o pd)).

(** [p.parent.mkdir(parents=True, exist_ok=True)] *)
Definition mkdir_parent (p : path) : M unit := emit (EvMkdir (parent p)).

(** Modelled from the spec: [model.save(path)] of the absent [WaveRNN]
    class writes the weights artifact, which carries the step counter. *)
Definition model_save (p : path) : M unit :=
  emit (EvModelSave p) ;;
  m <- gets model ;;
  f <- gets fs ;;
  set_fs (<[p := WeightsFile (step m) (weights m)]> f).

(** [torch.save(optimizer.state_dict(), path)] *)
Definition torch_save_optimizer (p : path) : M unit :=
  emit (EvTorchSave p) ;;
  o <- gets optimizer ;;
  f <- gets fs ;;
  set_fs (<[p := OptimFile o]> f).

(** Modelled from the spec: [model.load(path)] of the absent [WaveRNN]
    class replaces the parameters and the step counter by the stored ones. *)
Definition model_load (p : path) : M unit :=
  emit (EvModelLoad p) ;;
  m <- gets model ;;
  f <- gets fs ;;
  match f !! p with
  | Some (WeightsFile s w) =>
      set_model {| step := s; mode := mode m; weights := w |}
  | Some (OptimFile _) => raise (RuntimeError "not a weights file")
  | None => raise (FileNotFoundError (path_str p))
  end.

(** [optimizer.load_state_dict(torch.load(path))] *)
Definition optimizer_load (p : path) : M unit :=
  emit (EvOptimLoad p) ;;
  f <- gets fs ;;
  match f !! p with
  | Some (OptimFile o) => set_optimizer o
  | Some (WeightsFile _ _) => raise (RuntimeError "not an optimizer state")
  | None => raise (FileNotFoundError (path_str p))
  end.

Definition kind_str (is_named : bool) : string :=
  if is_named then "named" else "latest".

Definition broken_msg (s : string) : string :=
  "We expected either both or no files in the " +:+ s +:+
  " checkpoint to exist, but instead we got exactly one!".

Definition missing_msg (s : string) : string :=
  "The " +:+ s +:+ " checkpoint could not be found!".

(** The local function [helper] of [save_checkpoint]. *)
Definition helper (is_silent : bool) (pd : path_dict) (is_named : bool)
  : M unit :=
  let s := kind_str is_named in
  f <- gets fs ;;
  let n := num_exist f pd in
  (if negb ((n =? 0) || (n =? 2))
   then raise (FileNotFoundError (broken_msg s))
   else ret tt) ;;
  (if n =? 0
   then print_unless is_silent ("Creating " +:+ s +:+ " checkpoint...") ;;
        mkdir_parent (pd_w pd) ;;
        mkdir_parent (pd_o pd)
   else print_unless is_silent
          ("Saving to existing " +:+ s +:+ " checkpoint...")) ;;
  print_unless is_silent
    ("Saving " +:+ s +:+ " weights: " +:+ path_str (pd_w pd)) ;;
  model_save (pd_w pd) ;;
  print_unless is_silent
    ("Saving " +:+ s +:+ " optimizer state: " +:+ path_str (pd_o pd)) ;;
  torch_save_optimizer (pd_o pd).

Definition save_checkpoint (paths : Paths) (name : option string)
    (is_silent : bool) : M unit :=
  helper is_silent (latest_paths paths) false ;;
  if truthy name
  then helper is_silent (named_paths paths (name_str name)) true
  else ret tt.

Definition restore_checkpoint (paths : Paths) (name : option string)
    (create_if_missing : bool) : M unit :=
  let pd := if truthy name then named_paths paths (name_str name)
            else latest_paths paths in
  let s := kind_str (truthy name) in
  f <- gets fs ;;
  let n := num_exist f pd in
  if n =? 2 then
    print ("Restoring from " +:+ s +:+ " checkpoint...") ;;
    print ("Loading " +:+ s +:+ " weights: " +:+ path_str (pd_w pd)) ;;
    model_load (pd_w pd) ;;
    print ("Loading " +:+ s +:+ " optimizer state: " +:+ path_str (pd_o pd)) ;;
    optimizer_load (pd_o pd)
  else if create_if_missing then
    save_checkpoint paths name false
  else
    raise (FileNotFoundError (missing_msg s)).

End Checkpoints.

(** ** Tensors, at the level of shapes and element types *)

(** [t.transpose(d0, d1)]: an axis outside the tensor's rank is an
    [IndexError]. *)
Definition transpose (d0 d1 : nat) (t : Tensor) : outcome Tensor :=
  match shape t !! d0, shape t !! d1 with
  | Some a, Some b =>
      Return {| shape := <[d0 := b]> (<[d1 := a]> (shape t)); dt := dt t |}
  | _, _ => Raise IndexError
  end.

(** [t.unsqueeze(-1)] *)
Definition unsqueeze_last (t : Tensor) : Tensor :=
  {| shape := shape t ++ [1]; dt := dt t |}.

(** [t.float()] *)
Definition to_float (t : Tensor) : Tensor :=
  {| shape := shape t; dt := Float32 |}.

(** Lines 113-119 of [voc_train_loop]: what is handed to [loss_func]. *)
Definition loss_inputs (mode : string) (y_hat y : Tensor)
  : outcome (Tensor * Tensor) :=
  if String.eqb mode "RAW" then
    match transpose 1 2 y_hat with
    | Return t => Return (unsqueeze_last t, unsqueeze_last y)
    | Raise e => Raise e
    end
  else if String.eqb mode "MOL" then
    Return (y_hat, unsqueeze_last (to_float y))
  else
    Return (y_hat, unsqueeze_last y).

(** ** Integer arithmetic as Python has it *)

(** [a // b] *)
Definition floordiv (a b : Z) : outcome Z :=
  if b =? 0 then Raise ZeroDivisionError else Return (a / b).

(** [a % b] *)
Definition pymod (a b : Z) : outcome Z :=
  if b =? 0 then Raise ZeroDivisionError else Return (a mod b).

(** A value as NumPy's default integer type, [int64], holds it: two's
    complement wrap-around. *)
Definition wrap64 (z : Z) : Z := (z + 2 ^ 63) mod 2 ^ 64 - 2 ^ 63.

(** The integers [int64] represents. *)
Definition is_int64 (z : Z) : bool := (- 2 ^ 63 <=? z) && (z <? 2 ^ 63).

(** [str(n)] for an integer. *)
Definition str_of_Z (n : Z) : string := NilZero.string_of_int (Z.to_int n).

(** [range(lo, hi)] *)
Definition range (lo hi : Z) : list Z :=
  map (fun i => lo + Z.of_nat i) (seq 0 (Z.to_nat (hi - lo))).

(** [enumerate(l, start)] *)
Fixpoint enumerate {A} (l : list A) (start : Z) : list (Z * A) :=
  match l with
  | [] => []
  | a :: l' => (start, a) :: enumerate l' (start + 1)
  end.

(** The spec's epoch count, [ceil(remaining / iterations_per_epoch)], written
    from the spec's words for comparison with the code's formula. *)
Definition ceil_div (a b : Z) : Z := - ((- a) / b).

(** ** Configuration *)

Record Batch := { bx : Tensor; by_ : Tensor; bm : Tensor }.

Section Training.

Context {W O float : Type}.
Abbreviation M := (M W O float).
Abbreviation World := (World W O float).

(** The numerical collaborators: the network, autograd, gradient clipping,
    the Adam update and the data pipeline.  Their arithmetic is not part of
    this file; only what the driver observes of them is. *)
Class Collaborators := {
  (** [np.isnan] *)
  isnan : float -> bool;
  (** shape and type of the prediction *)
  net_forward : W -> Tensor -> Tensor -> Tensor;
  (** [optimizer.zero_grad()] *)
  zero_grad : W -> W;
  (** [loss.backward()] *)
  backward : W -> loss_fn -> Tensor -> Tensor -> W;
  (** [torch.nn.utils.clip_grad_norm_(params, max_norm)] *)
  clip_grad_norm_ : W -> float -> W * float;
  (** [optimizer.step()] *)
  adam_step : Adam O float -> W -> Adam O float * W;
  (** freshly initialised network parameters and optimizer *)
  init_weights : W;
  init_adam : Adam O float;
  (** [get_vocoder_datasets(path, batch_size, train_gta)] *)
  get_vocoder_datasets : path -> Z -> bool -> list Batch * list Batch
}.

Context {collab : Collaborators}.

(** The values of [utils.hparams] the driver reads. *)
Record HParams := {
  voc_lr : float;
  voc_batch_size : Z;
  voc_total_steps : Z;
  voc_clip_grad_norm : option float;
  voc_checkpoint_every : Z;
  voc_mode : string;
  voc_upsample_factors : list Z;
  hop_length : Z
}.

(** Command-line arguments after [parse_args]. *)
Record Args := {
  arg_lr : option float;
  arg_batch_size : option Z;
  force_train : bool;
  gta : bool;
  force_cpu : bool
}.

(** [torch.cuda.is_available()] and [torch.cuda.device_count()]. *)
Record Cuda := { is_available : bool; device_count : Z }.

Definition lift {A} (o : outcome A) : M A :=
  match o with
  | Return a => ret a
  | Raise e => raise e
  end.

Fixpoint for_each {A} (l : list A) (body : A -> M unit) : M unit :=
  match l with
  | [] => ret tt
  | a :: l' => body a ;; for_each l' body
  end.

Definition set_weights (w : W) : M unit :=
  m <- gets model ;;
  set_model {| step := step m; mode := mode m; weights := w |}.

(** Modelled from the spec: the forward pass of the absent [WaveRNN] class
    (called directly or through the absent [data_parallel_workaround]).  The
    step counter is owned by the model and advances exactly once per
    processed batch; the forward pass is the only model operation the loop
    performs per batch. *)
Definition forward (parallel : bool) (x m : Tensor) : M Tensor :=
  emit (EvForward parallel) ;;
  mo <- gets model ;;
  set_model {| step := step mo + 1; mode := mode mo; weights := weights mo |} ;;
  ret (net_forward (weights mo) x m).

(** Lines 105-137: one optimization step on one batch; returns [step].
    [on_cuda] is [device.type == 'cuda'] for the device of the model's
    parameters, where [main] placed them. *)
Definition optimise_batch (hp : HParams) (cuda : Cuda) (on_cuda : bool)
    (loss_func : loss_fn) (b : Batch) : M Z :=
  let x := bx b in let m := bm b in let y := by_ b in
  y_hat <- forward (on_cuda && (1 <? device_count cuda)) x m ;;
  mo <- gets model ;;
  yy <- lift (loss_inputs (mode mo) y_hat y) ;;
  let y_hat := fst yy in let y := snd yy in
  emit (EvLoss loss_func y_hat y) ;;
  emit EvZeroGrad ;;
  set_weights (zero_grad (weights mo)) ;;
  emit EvBackward ;;
  w <- gets (fun w => weights (model w)) ;;
  set_weights (backward w loss_func y_hat y) ;;
  match voc_clip_grad_norm hp with
  | Some max_norm =>
      emit EvClipGradNorm ;;
      w <- gets (fun w => weights (model w)) ;;
      let clipped := clip_grad_norm_ w max_norm in
      let grad_norm := snd clipped in
      set_weights (fst clipped) ;;
      if isnan grad_norm then print "grad_norm was NaN!" else ret tt
  | None => ret tt
  end ;;
  emit EvOptimStep ;;
  o <- gets optimizer ;;
  w <- gets (fun w => weights (model w)) ;;
  let updated := adam_step o w in
  set_optimizer (fst updated) ;;
  set_weights (snd updated) ;;
  gets (fun w => get_step (model w)).

(** Lines 138-148: periodic generation and named checkpoint, then the
    progress line. *)
Definition periodic_checkpoint (hp : HParams) (paths : Paths)
    (e epochs i total_iters step : Z) : M unit :=
  let k := step / 1000 in
  r <- lift (pymod step (voc_checkpoint_every hp)) ;;
  (if r =? 0 then
     emit (EvGenTestset (voc_output paths)) ;;
     let ckpt_name := "wave_step" +:+ str_of_Z k +:+ "K" in
     save_checkpoint paths (Some ckpt_name) true
   else ret tt) ;;
  emit (EvStream e epochs i total_iters k).

Definition batch_body (hp : HParams) (cuda : Cuda) (on_cuda : bool)
    (paths : Paths) (loss_func : loss_fn) (e epochs total_iters : Z)
    (ib : Z * Batch) : M unit :=
  step <- optimise_batch hp cuda on_cuda loss_func (snd ib) ;;
  periodic_checkpoint hp paths e epochs (fst ib) total_iters step.

(** Line 97: the number of epochs to run. *)
Definition voc_epochs (total_steps step total_iters : Z) : outcome Z :=
  match floordiv (total_steps - step) total_iters with
  | Return q => Return (q + 1)
  | Raise e => Raise e
  end.

Definition epoch_body (hp : HParams) (cuda : Cuda) (on_cuda : bool)
    (paths : Paths) (loss_func : loss_fn) (train_set : list Batch)
    (epochs total_iters e : Z) : M unit :=
  for_each (enumerate train_set 1)
    (batch_body hp cuda on_cuda paths loss_func e epochs total_iters) ;;
  save_checkpoint paths None true ;;
  emit (EvLog (voc_log paths)) ;;
  print " ".

Definition voc_train_loop (hp : HParams) (cuda : Cuda) (on_cuda : bool)
    (paths : Paths) (loss_func : loss_fn) (train_set test_set : list Batch)
    (lr : float) (total_steps : Z) : M unit :=
  o <- gets optimizer ;;
  set_optimizer {| lr := lr; opt_state := opt_state o |} ;;
  let total_iters := Z.of_nat (length train_set) in
  mo <- gets model ;;
  epochs <- lift (voc_epochs total_steps (get_step mo) total_iters) ;;
  for_each (range 1 (epochs + 1))
    (epoch_body hp cuda on_cuda paths loss_func train_set epochs total_iters).

(** Lines 42-47 of [main]: device selection and the batch-size check.
    Returns whether the accelerator is used. *)
Definition select_device (force_cpu : bool) (cuda : Cuda) (batch_size : Z)
  : M bool :=
  if negb force_cpu && is_available cuda then
    r <- lift (pymod batch_size (device_count cuda)) ;;
    if negb (r =? 0)
    then raise (ValueError "`batch_size` must be evenly divisible by n_gpus!")
    else ret true
  else ret false.

(** [np.cumprod(factors)[-1]] for factors that fit [int64]: the running
    product is kept in [int64] and wraps around silently. *)
Definition cumprod_last (factors : list Z) : outcome Z :=
  match factors with
  | [] => Raise IndexError
  | _ => Return (fold_left (fun acc x => wrap64 (acc * x)) factors 1)
  end.

Definition main (args : Args) (hp : HParams) (cuda : Cuda) (paths : Paths)
  : M unit :=
  let lr := default (voc_lr hp) (arg_lr args) in
  let batch_size := default (voc_batch_size hp) (arg_batch_size args) in
  on_cuda <- select_device (force_cpu args) cuda batch_size ;;
  print ("Using device: " +:+ (if on_cuda then "cuda" else "cpu")) ;;
  print (nl +:+ "Initialising Model..." +:+ nl) ;;
  set_model {| step := 0; mode := voc_mode hp; weights := init_weights |} ;;
  p <- lift (cumprod_last (voc_upsample_factors hp)) ;;
  (if p =? hop_length hp then ret tt else raise AssertionError) ;;
  set_optimizer init_adam ;;
  restore_checkpoint paths None true ;;
  let sets := get_vocoder_datasets (data paths) batch_size (gta args) in
  let train_set := fst sets in let test_set := snd sets in
  let total_steps :=
    if force_train args then 10000000 else voc_total_steps hp in
  mo <- gets model ;;
  emit (EvTable ((total_steps - get_step mo) / 1000)) ;;
  let loss_func := if String.eqb (mode mo) "RAW" then cross_entropy
                   else discretized_mix_logistic_loss in
  voc_train_loop hp cuda on_cuda paths loss_func train_set test_set lr
    total_steps ;;
  print "Training Complete." ;;
  print "To continue training increase voc_total_steps in hparams.py or use --force_train".

End Training.

Arguments Collaborators : clear implicits.
Arguments HParams : clear implicits.
Arguments Args : clear implicits.

(** ** Closed forms used in the statements *)

Section Closed.

Context {W O float : Type}.
Abbreviation World := (World W O float).

(** The paths of a checkpoint identity: the named pair for a non-empty
    [name], the latest pair otherwise. *)
Definition identity_paths (paths : Paths) (name : option string) : path_dict :=
  if truthy name then named_paths paths (name_str name) else latest_paths paths.

(** The file system after the pair [pd] has been written from [m] and [o]. *)
Definition saved (f : gmap path (blob W O float)) (m : WaveRNN W)
    (o : Adam O float) (pd : path_dict) : gmap path (blob W O float) :=
  <[pd_o pd := OptimFile o]> (<[pd_w pd := WeightsFile (step m) (weights m)]> f).

(** What a successful [helper] prints and does, in order, when it found [n]
    of the two files. *)
Definition helper_events (is_silent : bool) (pd : path_dict) (is_named : bool)
    (n : Z) : list event :=
  let s := kind_str is_named in
  let say msg := if is_silent then [] else [EvPrint msg] in
  (if n =? 0
   then say ("Creating " +:+ s +:+ " checkpoint...") ++
        [EvMkdir (parent (pd_w pd)); EvMkdir (parent (pd_o pd))]
   else say ("Saving to existing " +:+ s +:+ " checkpoint...")) ++
  say ("Saving " +:+ s +:+ " weights: " +:+ path_str (pd_w pd)) ++
  [EvModelSave (pd_w pd)] ++
  say ("Saving " +:+ s +:+ " optimizer state: " +:+ path_str (pd_o pd)) ++
  [EvTorchSave (pd_o pd)].

(** The world after a successful [helper] on [pd]. *)
Definition after_helper (is_silent : bool) (pd : path_dict) (is_named : bool)
    (w : World) : World :=
  {| fs := saved (fs w) (model w) (optimizer w) pd;
     model := model w;
     optimizer := optimizer w;
     trace := trace w ++
              helper_events is_silent pd is_named (num_exist (fs w) pd) |}.

(** The layout of the checkpoint files is coherent for [name]: the named pair
    is the latest pair itself or shares no file with it. *)
Definition coherent (paths : Paths) (name : option string) : Prop :=
  truthy name = true ->
  let n := named_paths paths (name_str name) in
  let l := latest_paths paths in
  n = l \/
  (pd_w n <> pd_w l /\ pd_w n <> pd_o l /\
   pd_o n <> pd_w l /\ pd_o n <> pd_o l).

(** The events that write a file. *)
Definition is_write (ev : event) : bool :=
  match ev with
  | EvModelSave _ | EvTorchSave _ => true
  | _ => false
  end.

Definition write_events (t : list event) : list event :=
  List.filter is_write t.

(** The two write events of a pair, in the order [helper] issues them. *)
Definition pair_writes (pd : path_dict) : list event :=
  [EvModelSave (pd_w pd); EvTorchSave (pd_o pd)].

(** The events of the loading branch of [restore_checkpoint]. *)
Definition load_events (s : string) (pd : path_dict) : list event :=
  [EvPrint ("Restoring from " +:+ s +:+ " checkpoint...");
   EvPrint ("Loading " +:+ s +:+ " weights: " +:+ path_str (pd_w pd));
   EvModelLoad (pd_w pd);
   EvPrint ("Loading " +:+ s +:+ " optimizer state: " +:+ path_str (pd_o pd));
   EvOptimLoad (pd_o pd)].

End Closed.

(** ** Closed form of one optimization step *)

Section ClosedTraining.

Context {W O float : Type} {collab : Collaborators W O float}.
Abbreviation World := (World W O float).

(** The parameters after [zero_grad], [backward] and, when a threshold is
    configured, gradient clipping. *)
Definition clipped_weights (hp : HParams float) (wt : W) : W :=
  match voc_clip_grad_norm hp with
  | Some max_norm => fst (clip_grad_norm_ wt max_norm)
  | None => wt
  end.

(** The events of lines 126-129. *)
Definition clip_events (hp : HParams float) (wt : W) : list event :=
  match voc_clip_grad_norm hp with
  | Some max_norm =>
      EvClipGradNorm ::
      (if isnan (snd (clip_grad_norm_ wt max_norm))
       then [EvPrint "grad_norm was NaN!"] else [])
  | None => []
  end.

(** The world after a batch whose loss inputs are [y_hat] and [y]. *)
Definition after_batch (hp : HParams float) (parallel : bool)
    (loss_func : loss_fn) (y_hat y : Tensor) (w : World) : World :=
  let wt := backward (zero_grad (weights (model w))) loss_func y_hat y in
  let upd := adam_step (optimizer w) (clipped_weights hp wt) in
  {| fs := fs w;
     model := {| step := step (model w) + 1; mode := mode (model w);
                 weights := snd upd |};
     optimizer := fst upd;
     trace := trace w ++
              [EvForward parallel; EvLoss loss_func y_hat y; EvZeroGrad;
               EvBackward] ++ clip_events hp wt ++ [EvOptimStep] |}.

(** The number of completed epochs recorded in a trace: [model.log] is
    called once at the end of every epoch. *)
Definition is_log (ev : event) : bool :=
  match ev with EvLog _ => true | _ => false end.

Definition epochs_logged (t : list event) : nat :=
  length (List.filter is_log t).

(** A computation that, whenever it returns, has logged [n] more epochs. *)
Definition logs {A} (c : M W O float A) (n : nat) : Prop :=
  forall w a w', c w = (Return a, w') ->
  epochs_logged (trace w') = (epochs_logged (trace w) + n)%nat.

End ClosedTraining.

(** ** Observations on worlds and traces *)

Section Observations.

Context {W O float : Type}.
Abbreviation World := (World W O float).

Definition is_print (ev : event) : bool :=
  match ev with EvPrint _ => true | _ => false end.

Definition is_optim_step (ev : event) : bool :=
  match ev with EvOptimStep => true | _ => false end.

(** The number of events of a kind in a trace. *)
Definition count_events (p : event -> bool) (t : list event) : Z :=
  Z.of_nat (length (List.filter p t)).

(** The number of optimizer updates recorded in a trace. *)
Definition updates (t : list event) : Z := count_events is_optim_step t.

(** A computation that, whenever it returns, has added [n] events of kind
    [p] to the trace. *)
Definition adds {A} (p : event -> bool) (c : M W O float A) (n : Z) : Prop :=
  forall w a w', c w = (Return a, w') ->
  count_events p (trace w') = count_events p (trace w) + n.

(** The latest checkpoint on disk is the state in memory. *)
Definition latest_current (paths : Paths) (w : World) : Prop :=
  fs w !! voc_latest_weights paths
    = Some (WeightsFile (step (model w)) (weights (model w))) /\
  fs w !! voc_latest_optim paths = Some (OptimFile (optimizer w)).

(** The name of the snapshot taken at step [st] (line 143). *)
Definition ckpt_name (st : Z) : string :=
  "wave_step" +:+ str_of_Z (st / 1000) +:+ "K".

(** The world with the learning rate of the optimizer set (line 94). *)
Definition with_lr (new_lr : float) (w : World) : World :=
  {| fs := fs w; model := model w;
     optimizer := {| lr := new_lr; opt_state := opt_state (optimizer w) |};
     trace := trace w |}.

(** The world in which [main] builds a fresh model on [device] text
    [dev] (lines 48-64), before the hop-length assertion. *)
Definition announced (dev : string) (m : WaveRNN W) (w : World) : World :=
  {| fs := fs w; model := m; optimizer := optimizer w;
     trace := trace w ++
              [EvPrint ("Using device: " +:+ dev);
               EvPrint (nl +:+ "Initialising Model..." +:+ nl)] |}.

End Observations.

(** ** Sample data *)

Module Sample.

(** Parameters and optimizer moments are single integers here; a float is an
    integer or not-a-number. *)
Abbreviation float := (option Z).
Abbreviation world := (World Z Z float).

Definition paths : Paths := {|
  voc_latest_weights := ["checkpoints"; "latest_weights.pyt"];
  voc_latest_optim := ["checkpoints"; "latest_optim.pyt"];
  voc_checkpoints := ["checkpoints"];
  voc_output := ["model_outputs"];
  voc_log := ["checkpoints"; "log.txt"];
  data := ["data"]
|}.

#[export] Instance collaborators : Collaborators Z Z float := {|
  isnan := fun g => match g with None => true | Some _ => false end;
  net_forward := fun _ x _ =>
    {| shape := shape x ++ [512]; dt := Float32 |};
  zero_grad := fun w => w;
  backward := fun w _ _ _ => w;
  clip_grad_norm_ := fun w _ => (w, None);
  adam_step := fun o w => (o, w + 1);
  init_weights := 0;
  init_adam := {| lr := Some 1; opt_state := 0 |};
  get_vocoder_datasets := fun _ _ _ => ([], [])
|}.


Definition a_model : WaveRNN Z := {| step := 7; mode := "RAW"; weights := 3 |}.
Definition an_adam : Adam Z float := {| lr := Some 1; opt_state := 5 |}.

Definition world_with (f : gmap path (blob Z Z float)) : world :=
  {| fs := f; model := a_model; optimizer := an_adam; trace := [] |}.

(** No checkpoint on disk. *)
Definition w_none : world := world_with ∅.

(** Only the latest weights file is on disk. *)
Definition w_one : world :=
  world_with {[ voc_latest_weights paths := WeightsFile 4 2 ]}.

(** A complete latest checkpoint. *)
Definition w_both : world :=
  world_with (<[ voc_latest_optim paths := OptimFile {| lr := Some 2; opt_state := 9 |} ]>
              {[ voc_latest_weights paths := WeightsFile 4 2 ]}).

(** A complete latest checkpoint and half of the named one ["snap"]. *)
Definition w_named_one : world :=
  world_with (<[ pd_o (named_paths paths "snap") := OptimFile an_adam ]> (fs w_both)).

Definition hp : HParams float := {|
  voc_lr := Some 1;
  voc_batch_size := 32;
  voc_total_steps := 1000;
  voc_clip_grad_norm := Some (Some 4);
  voc_checkpoint_every := 500;
  voc_mode := "RAW";
  voc_upsample_factors := [5; 5; 11];
  hop_length := 275
|}.

Definition args (batch_size : Z) : Args float := {|
  arg_lr := None;
  arg_batch_size := Some batch_size;
  force_train := false;
  gta := false;
  force_cpu := false
|}.

(** A complete latest checkpoint, the model in continuous mode. *)
Definition w_mol : world :=
  {| fs := fs w_both;
     model := {| step := 7; mode := "MOL"; weights := 3 |};
     optimizer := an_adam; trace := [] |}.

Definition two_gpus : Cuda := {| is_available := true; device_count := 2 |}.

Definition a_batch : Batch := {|
  bx := {| shape := [16; 100]; dt := Float32 |};
  by_ := {| shape := [16; 100]; dt := Int64 |};
  bm := {| shape := [16; 80; 24]; dt := Float32 |}
|}.

End Sample.

(** ** More sample data *)

Module Fixtures.
Import Sample.

(** A world with the files [f] and a model and optimizer that were never
    trained or saved. *)
Definition blank (f : gmap path (blob Z Z float)) : world :=
  {| fs := f;
     model := {| step := 0; mode := "RAW"; weights := 0 |};
     optimizer := {| lr := None; opt_state := 0 |};
     trace := [] |}.

(** A complete latest checkpoint and a complete snapshot ["snap"]. *)
Definition w_snap : world :=
  world_with
    (<[ pd_w (named_paths paths "snap") := WeightsFile 100 42 ]>
     (<[ pd_o (named_paths paths "snap")
           := OptimFile {| lr := Some 3; opt_state := 8 |} ]> (fs w_both))).

(** The hyperparameters with the checkpoint interval set to zero. *)
Definition hp_no_interval : HParams float := {|
  voc_lr := Some 1;
  voc_batch_size := 32;
  voc_total_steps := 1000;
  voc_clip_grad_norm := Some (Some 4);
  voc_checkpoint_every := 0;
  voc_mode := "RAW";
  voc_upsample_factors := [5; 5; 11];
  hop_length := 275
|}.

(** The hyperparameters with a hop length the factors do not multiply to. *)
Definition hp_bad_hop : HParams float := {|
  voc_lr := Some 1;
  voc_batch_size := 32;
  voc_total_steps := 1000;
  voc_clip_grad_norm := Some (Some 4);
  voc_checkpoint_every := 500;
  voc_mode := "RAW";
  voc_upsample_factors := [5; 5; 11];
  hop_length := 256
|}.

Definition args_cpu : Args float := {|
  arg_lr := None;
  arg_batch_size := Some 33;
  force_train := false;
  gta := false;
  force_cpu := true
|}.

(** Two epochs' worth of data and four steps left to train. *)
Definition short_run : outcome unit * world :=
  voc_train_loop hp two_gpus false paths cross_entropy [a_batch; a_batch] []
    (Some 1) 11 w_none.

End Fixtures.

(** * Properties of the checkpoint protocol *)

Section CheckpointFacts.

Context {W O float : Type}.
Abbreviation World := (World W O float).
Implicit Types (w : World) (pd : path_dict) (f : gmap path (blob W O float)).

Lemma num_exist_range f pd :
  num_exist f pd = 0 \/ num_exist f pd = 1 \/ num_exist f pd = 2.
Proof.
  unfold num_exist.
  destruct (path_exists f (pd_w pd)), (path_exists f (pd_o pd)); simpl; lia.
Qed.

Lemma path_exists_insert f p q (b : blob W O float) :
  path_exists (<[p := b]> f) q = bool_decide (p = q) || path_exists f q.
Proof.
  unfold path_exists. destruct (decide (p = q)) as [->|Hne].
  - rewrite lookup_insert_eq, (bool_decide_eq_true_2 (q = q)) by done.
    simpl. reflexivity.
  - rewrite lookup_insert_ne by done.
    rewrite (bool_decide_eq_false_2 (p = q)) by done. reflexivity.
Qed.

Lemma path_exists_saved_w f (m : WaveRNN W) (o : Adam O float) pd :
  path_exists (saved f m o pd) (pd_w pd) = true.
Proof.
  unfold saved. rewrite !path_exists_insert.
  rewrite (bool_decide_eq_true_2 (pd_w pd = pd_w pd)) by done.
  apply orb_true_r.
Qed.

Lemma path_exists_saved_o f (m : WaveRNN W) (o : Adam O float) pd :
  path_exists (saved f m o pd) (pd_o pd) = true.
Proof.
  unfold saved. rewrite path_exists_insert.
  by rewrite bool_decide_eq_true_2.
Qed.

Lemma num_exist_saved f (m : WaveRNN W) (o : Adam O float) pd :
  num_exist (saved f m o pd) pd = 2.
Proof.
  unfold num_exist.
  by rewrite path_exists_saved_w, path_exists_saved_o.
Qed.

Lemma saved_other f (m : WaveRNN W) (o : Adam O float) pd q :
  q <> pd_w pd -> q <> pd_o pd -> saved f m o pd !! q = f !! q.
Proof.
  intros Hw Ho. unfold saved.
  rewrite lookup_insert_ne by done. by rewrite lookup_insert_ne.
Qed.

Lemma num_exist_saved_other f (m : WaveRNN W) (o : Adam O float) pd pd' :
  pd_w pd' <> pd_w pd -> pd_w pd' <> pd_o pd ->
  pd_o pd' <> pd_w pd -> pd_o pd' <> pd_o pd ->
  num_exist (saved f m o pd) pd' = num_exist f pd'.
Proof.
  intros. unfold num_exist, path_exists.
  by rewrite !saved_other.
Qed.

Lemma saved_twice f (m : WaveRNN W) (o : Adam O float) pd :
  saved (saved f m o pd) m o pd = saved f m o pd.
Proof.
  unfold saved. apply map_eq. intros q.
  destruct (decide (pd_o pd = q)) as [->|Ho].
  - by rewrite !lookup_insert_eq.
  - rewrite !(lookup_insert_ne _ (pd_o pd)) by done.
    destruct (decide (pd_w pd = q)) as [->|Hw].
    + by rewrite !lookup_insert_eq.
    + by rewrite !lookup_insert_ne.
Qed.

(** [helper] in closed form: it raises exactly when one file of the pair is
    present, and otherwise writes the pair. *)
Lemma helper_run is_silent pd is_named w :
  helper is_silent pd is_named w =
  if num_exist (fs w) pd =? 1
  then (Raise (FileNotFoundError (broken_msg (kind_str is_named))), w)
  else (Return tt, after_helper is_silent pd is_named w).
Proof.
  unfold helper, after_helper, helper_events, saved, bind, gets.
  destruct w as [f m o t]; simpl.
  destruct (num_exist_range f pd) as [E|[E|E]]; rewrite E; simpl;
    [ | reflexivity | ];
    destruct is_silent; simpl;
    unfold mkdir_parent, model_save, torch_save_optimizer, print, emit,
      set_fs, bind, gets, ret; simpl;
    rewrite <- ?app_assoc; reflexivity.
Qed.

Lemma helper_raises is_silent pd is_named w :
  num_exist (fs w) pd = 1 ->
  helper is_silent pd is_named w =
  (Raise (FileNotFoundError (broken_msg (kind_str is_named))), w).
Proof. intros E. by rewrite helper_run, E. Qed.

Lemma helper_returns is_silent pd is_named w :
  num_exist (fs w) pd <> 1 ->
  helper is_silent pd is_named w =
  (Return tt, after_helper is_silent pd is_named w).
Proof.
  intros E. rewrite helper_run.
  destruct (Z.eqb_spec (num_exist (fs w) pd) 1); [lia | done].
Qed.

(** [save_checkpoint] in closed form. *)
Lemma save_checkpoint_run paths name is_silent w :
  save_checkpoint paths name is_silent w =
  match helper is_silent (latest_paths paths) false w with
  | (Return _, w1) =>
      if truthy name
      then helper is_silent (named_paths paths (name_str name)) true w1
      else (Return tt, w1)
  | (Raise e, w1) => (Raise e, w1)
  end.
Proof.
  unfold save_checkpoint, bind.
  destruct (helper is_silent (latest_paths paths) false w) as [[[]|e] w1];
    [|reflexivity].
  by destruct (truthy name).
Qed.

(** Saving never touches the model or the optimizer, whatever the outcome. *)
Lemma helper_frame is_silent pd is_named w :
  model (snd (helper is_silent pd is_named w)) = model w /\
  optimizer (snd (helper is_silent pd is_named w)) = optimizer w.
Proof.
  rewrite helper_run. by destruct (_ =? 1).
Qed.

Lemma save_checkpoint_frame paths name is_silent w :
  model (snd (save_checkpoint paths name is_silent w)) = model w /\
  optimizer (snd (save_checkpoint paths name is_silent w)) = optimizer w.
Proof.
  rewrite save_checkpoint_run.
  pose proof (helper_frame is_silent (latest_paths paths) false w) as [Hm Ho].
  destruct (helper is_silent (latest_paths paths) false w) as [[[]|e] w1];
    simpl in *; [|done].
  destruct (truthy name); [|done].
  pose proof (helper_frame is_silent (named_paths paths (name_str name)) true w1)
    as [Hm' Ho'].
  split; congruence.
Qed.

End CheckpointFacts.

Section CheckpointClaims.

Context {W O float : Type}.
Abbreviation World := (World W O float).
Implicit Types (w : World) (pd : path_dict) (f : gmap path (blob W O float)).

Lemma append_suffix_inj (n a b : string) : n +:+ a = n +:+ b -> a = b.
Proof.
  induction n as [|c n IH]; simpl; [done|].
  intros E. injection E as E. auto.
Qed.

Lemma named_paths_distinct paths n :
  pd_w (named_paths paths n) <> pd_o (named_paths paths n).
Proof.
  unfold named_paths, joinpath; simpl. intros E.
  apply app_inv_head in E. injection E as E.
  apply append_suffix_inj in E. discriminate.
Qed.

Lemma write_events_app (t1 t2 : list event) :
  write_events (t1 ++ t2) = write_events t1 ++ write_events t2.
Proof. apply List.filter_app. Qed.

Lemma write_events_helper is_silent pd is_named n :
  write_events (helper_events is_silent pd is_named n) = pair_writes pd.
Proof.
  unfold helper_events. destruct is_silent, (n =? 0); reflexivity.
Qed.

Lemma string_length_append (s t : string) :
  String.length (s +:+ t) = (String.length s + String.length t)%nat.
Proof.
  induction s as [|c s IH]; [reflexivity|].
  change (S (String.length (s +:+ t))
          = S (String.length s + String.length t)).
  by rewrite IH.
Qed.

(** Two strings that end in suffixes of the same length and are equal have
    equal suffixes and equal stems. *)
Lemma append_same_length (n m a b : string) :
  String.length a = String.length b -> n +:+ a = m +:+ b -> n = m /\ a = b.
Proof.
  revert m. induction n as [|c n IH]; intros [|d m] Hl E.
  - done.
  - change (a = String d (m +:+ b)) in E.
    subst a. simpl in Hl. rewrite string_length_append in Hl. lia.
  - change (String c (n +:+ a) = b) in E.
    subst b. simpl in Hl. rewrite string_length_append in Hl. lia.
  - change (String c (n +:+ a) = String d (m +:+ b)) in E.
    injection E as -> E. destruct (IH m Hl E) as [-> ->]. done.
Qed.

(** A layout that keeps the latest files in the checkpoints directory under
    the names [latest_weights.pyt] and [latest_optim.pyt] is coherent for
    every name: only the name ["latest"] meets the latest pair, and then in
    both files. *)
Lemma coherent_latest_in_checkpoints paths name :
  voc_latest_weights paths
    = joinpath (voc_checkpoints paths) "latest_weights.pyt" ->
  voc_latest_optim paths
    = joinpath (voc_checkpoints paths) "latest_optim.pyt" ->
  coherent paths name.
Proof.
  intros Hw Ho _. unfold named_paths, latest_paths. rewrite Hw, Ho. simpl.
  destruct (decide (name_str name = "latest")) as [->|Hne]; [by left|].
  right. unfold joinpath.
  repeat split; intros E; apply app_inv_head in E; injection E as E.
  - change "latest_weights.pyt" with ("latest" +:+ "_weights.pyt") in E.
    by apply append_same_length in E as [? _].
  - change "latest_optim.pyt" with ("late" +:+ "st_optim.pyt") in E.
    by apply append_same_length in E as [_ ?].
  - change "latest_weights.pyt" with ("latest_w" +:+ "eights.pyt") in E.
    by apply append_same_length in E as [_ ?].
  - change "latest_optim.pyt" with ("latest" +:+ "_optim.pyt") in E.
    by apply append_same_length in E as [? _].
Qed.

(** A named pair with exactly one file present stays so when a consistent
    latest pair is written. *)
Lemma named_one_after_latest is_silent paths name w :
  truthy name = true -> coherent paths name ->
  num_exist (fs w) (latest_paths paths) <> 1 ->
  num_exist (fs w) (named_paths paths (name_str name)) = 1 ->
  num_exist (fs (after_helper is_silent (latest_paths paths) false w))
            (named_paths paths (name_str name)) = 1.
Proof.
  intros Ht Hc El En. destruct (Hc Ht) as [Eq|(H1 & H2 & H3 & H4)].
  - rewrite Eq in En. contradiction.
  - simpl. by rewrite num_exist_saved_other.
Qed.

(** An absent named pair is absent or complete once the latest pair is
    written. *)
Lemma named_none_after_latest is_silent paths name w :
  truthy name = true -> coherent paths name ->
  num_exist (fs w) (named_paths paths (name_str name)) = 0 ->
  num_exist (fs (after_helper is_silent (latest_paths paths) false w))
            (named_paths paths (name_str name)) <> 1.
Proof.
  intros Ht Hc En. destruct (Hc Ht) as [Eq|(H1 & H2 & H3 & H4)].
  - rewrite Eq. simpl. rewrite num_exist_saved. lia.
  - simpl. rewrite num_exist_saved_other by done. lia.
Qed.

(** What [save_checkpoint] does when the pair of the requested identity has
    exactly one file. *)
Lemma save_checkpoint_broken_run paths name is_silent w :
  num_exist (fs w) (identity_paths paths name) = 1 -> coherent paths name ->
  save_checkpoint paths name is_silent w =
  if num_exist (fs w) (latest_paths paths) =? 1
  then (Raise (FileNotFoundError (broken_msg "latest")), w)
  else (Raise (FileNotFoundError (broken_msg "named")),
        after_helper is_silent (latest_paths paths) false w).
Proof.
  intros E Ha. rewrite save_checkpoint_run, helper_run.
  unfold identity_paths in E.
  destruct (Z.eqb_spec (num_exist (fs w) (latest_paths paths)) 1) as [E1|E1];
    [reflexivity|].
  destruct (truthy name) eqn:Ht; [|contradiction].
  rewrite helper_raises; [reflexivity|].
  by apply named_one_after_latest.
Qed.

Lemma broken_keeps_files paths name is_silent w :
  num_exist (fs w) (identity_paths paths name) = 1 -> coherent paths name ->
  let w' := snd (save_checkpoint paths name is_silent w) in
  fs w' !! pd_w (identity_paths paths name) =
    fs w !! pd_w (identity_paths paths name) /\
  fs w' !! pd_o (identity_paths paths name) =
    fs w !! pd_o (identity_paths paths name).
Proof.
  intros E Ha. simpl. rewrite save_checkpoint_broken_run by done.
  unfold identity_paths in *.
  destruct (Z.eqb_spec (num_exist (fs w) (latest_paths paths)) 1) as [E1|E1];
    [done|].
  destruct (truthy name) eqn:Ht; [|contradiction].
  destruct (Ha Ht) as [Eq|(H1 & H2 & H3 & H4)].
  - rewrite Eq in E. contradiction.
  - simpl. by rewrite !saved_other.
Qed.

(** [restore_checkpoint] with its branches applied to the world. *)
Lemma restore_checkpoint_run paths name create_if_missing w :
  let pd := identity_paths paths name in
  let s := kind_str (truthy name) in
  restore_checkpoint paths name create_if_missing w =
  if num_exist (fs w) pd =? 2 then
    (print ("Restoring from " +:+ s +:+ " checkpoint...") ;;
     print ("Loading " +:+ s +:+ " weights: " +:+ path_str (pd_w pd)) ;;
     model_load (pd_w pd) ;;
     print ("Loading " +:+ s +:+ " optimizer state: " +:+ path_str (pd_o pd)) ;;
     optimizer_load (pd_o pd)) w
  else if create_if_missing then save_checkpoint paths name false w
  else (Raise (FileNotFoundError (missing_msg s)), w).
Proof.
  unfold restore_checkpoint, identity_paths.
  unfold bind at 1. unfold gets at 1.
  destruct (truthy name); simpl;
    (destruct (_ =? 2); [reflexivity|]); by destruct create_if_missing.
Qed.



(** C2, as amended: with exactly one artifact of the identity present,
    [restore_checkpoint] raises [FileNotFoundError] for both values of
    [create_if_missing] and leaves both files of the identity as they were.
    Without [create_if_missing] it is the missing-checkpoint error, the world
    untouched; with it, it is the inconsistency error of [save_checkpoint]. *)
Theorem restore_checkpoint_one_of_two paths name create_if_missing w :
  let pd := identity_paths paths name in
  num_exist (fs w) pd = 1 -> coherent paths name ->
  restore_checkpoint paths name create_if_missing w =
    (if create_if_missing
     then if num_exist (fs w) (latest_paths paths) =? 1
          then (Raise (FileNotFoundError (broken_msg "latest")), w)
          else (Raise (FileNotFoundError (broken_msg "named")),
                after_helper false (latest_paths paths) false w)
     else (Raise (FileNotFoundError (missing_msg (kind_str (truthy name)))),
           w)) /\
  (let w' := snd (restore_checkpoint paths name create_if_missing w) in
   fs w' !! pd_w pd = fs w !! pd_w pd /\
   fs w' !! pd_o pd = fs w !! pd_o pd /\
   model w' = model w /\ optimizer w' = optimizer w).
Proof.
  intros pd E Ha.
  assert (R : restore_checkpoint paths name create_if_missing w =
              if create_if_missing then save_checkpoint paths name false w
              else (Raise (FileNotFoundError
                             (missing_msg (kind_str (truthy name)))), w)).
  { rewrite restore_checkpoint_run. fold pd. by rewrite E. }
  rewrite R. destruct create_if_missing.
  - split; [by apply save_checkpoint_broken_run|].
    destruct (broken_keeps_files paths name false w E Ha) as [Hw Ho].
    destruct (save_checkpoint_frame paths name false w) as [Hm Hop].
    simpl. auto.
  - simpl. auto.
Qed.

(** C3, as amended: when exactly one artifact of the identity exists,
    [save_checkpoint] raises the inconsistency [FileNotFoundError] and
    writes neither file of that identity; with the latest pair broken it
    writes nothing at all, whether or not a name is given. *)
Theorem save_checkpoint_one_of_two paths name is_silent w :
  let pd := identity_paths paths name in
  (num_exist (fs w) (latest_paths paths) = 1 ->
   save_checkpoint paths name is_silent w =
   (Raise (FileNotFoundError (broken_msg "latest")), w)) /\
  (num_exist (fs w) pd = 1 -> coherent paths name ->
   exists s w',
     save_checkpoint paths name is_silent w =
       (Raise (FileNotFoundError (broken_msg s)), w') /\
     fs w' !! pd_w pd = fs w !! pd_w pd /\
     fs w' !! pd_o pd = fs w !! pd_o pd).
Proof.
  intros pd. split.
  - intros E. rewrite save_checkpoint_run, helper_raises by done. reflexivity.
  - intros E Ha.
    destruct (broken_keeps_files paths name is_silent w E Ha) as [Hw Ho].
    rewrite save_checkpoint_broken_run in * by done.
    destruct (num_exist (fs w) (latest_paths paths) =? 1);
      eexists _, _; (split; [reflexivity|]); split; assumption.
Qed.

(** C8, as amended: from a latest pair that is fully present or fully
    absent, two consecutive saves of the latest identity both return, the
    pair is fully present after each, the second save leaves the files as the
    first wrote them, and the model (hence [get_step()]) and the optimizer are
    unchanged. *)
Theorem save_checkpoint_twice paths name is_silent w :
  truthy name = false ->
  num_exist (fs w) (latest_paths paths) <> 1 ->
  exists w1 w2,
    save_checkpoint paths name is_silent w = (Return tt, w1) /\
    save_checkpoint paths name is_silent w1 = (Return tt, w2) /\
    num_exist (fs w1) (latest_paths paths) = 2 /\
    num_exist (fs w2) (latest_paths paths) = 2 /\
    fs w2 = fs w1 /\
    model w2 = model w /\ optimizer w2 = optimizer w /\
    get_step (model w2) = get_step (model w).
Proof.
  intros Ht E.
  exists (after_helper is_silent (latest_paths paths) false w).
  exists (after_helper is_silent (latest_paths paths) false
            (after_helper is_silent (latest_paths paths) false w)).
  assert (E1 : num_exist
                 (fs (after_helper is_silent (latest_paths paths) false w))
                 (latest_paths paths) = 2) by apply num_exist_saved.
  rewrite !save_checkpoint_run, Ht.
  rewrite (helper_returns _ _ _ w) by done.
  rewrite helper_returns by lia.
  repeat split; try done.
  - apply num_exist_saved.
  - simpl. apply saved_twice.
Qed.

(** C9, as amended: a call of [save_checkpoint] that finds the latest pair
    fully present or fully absent writes the latest weights and then the
    latest optimizer state before anything else, named or not; a named pair is
    written after them.  Hence [restore_checkpoint] on an absent named
    checkpoint with [create_if_missing] rewrites the latest pair from the
    model and optimizer in memory. *)
Theorem save_checkpoint_latest_first paths name is_silent w :
  num_exist (fs w) (latest_paths paths) <> 1 ->
  let w1 := after_helper is_silent (latest_paths paths) false w in
  let npd := named_paths paths (name_str name) in
  save_checkpoint paths name is_silent w =
    (if truthy name then helper is_silent npd true w1 else (Return tt, w1)) /\
  write_events (trace (snd (save_checkpoint paths name is_silent w))) =
    write_events (trace w) ++ pair_writes (latest_paths paths) ++
    (if truthy name && negb (num_exist (fs w1) npd =? 1)
     then pair_writes npd else []) /\
  (truthy name = true -> num_exist (fs w) npd = 0 -> coherent paths name ->
   restore_checkpoint paths name true w =
     (Return tt, after_helper false npd true
                   (after_helper false (latest_paths paths) false w)) /\
   let w' := snd (restore_checkpoint paths name true w) in
   fs w' !! voc_latest_optim paths = Some (OptimFile (optimizer w)) /\
   (voc_latest_weights paths <> voc_latest_optim paths ->
    fs w' !! voc_latest_weights paths =
      Some (WeightsFile (step (model w)) (weights (model w))))).
Proof.
  intros E w1 npd.
  assert (R : forall silent,
             save_checkpoint paths name silent w =
             if truthy name
             then helper silent npd true
                    (after_helper silent (latest_paths paths) false w)
             else (Return tt,
                   after_helper silent (latest_paths paths) false w)).
  { intros silent. rewrite save_checkpoint_run.
    by rewrite (helper_returns _ _ _ w). }
  split; [apply R|]. split.
  - rewrite R. destruct (truthy name); cbn [andb].
    + rewrite helper_run. fold w1.
      destruct (num_exist (fs w1) npd =? 1); simpl;
        by rewrite ?write_events_app, ?write_events_helper, ?app_nil_r,
             <- ?app_assoc.
    + simpl. by rewrite write_events_app, write_events_helper.
  - subst w1 npd. intros Ht E0 Ha.
    assert (Rr : restore_checkpoint paths name true w =
                 save_checkpoint paths name false w).
    { rewrite restore_checkpoint_run. unfold identity_paths.
      by rewrite Ht, E0. }
    rewrite Rr, R, Ht.
    rewrite helper_returns by (by apply named_none_after_latest).
    split; [reflexivity|].
    destruct (Ha Ht) as [Eq|(H1 & H2 & H3 & H4)]; simpl in *.
    + rewrite Eq. unfold saved; simpl. split.
      * by rewrite lookup_insert_eq.
      * intros Hne. rewrite lookup_insert_ne by done.
        by rewrite lookup_insert_eq.
    + split.
      * rewrite saved_other by done. unfold saved.
        by rewrite lookup_insert_eq.
      * intros Hne. rewrite saved_other by done. unfold saved.
        rewrite lookup_insert_ne by done. by rewrite lookup_insert_eq.
Qed.

(** C10: with a name given, the latest pair fully present or fully absent
    and exactly one of the two named files present, [save_checkpoint] raises
    the inconsistency error for the named pair only after both latest files
    have been written: the call fails and the file system has changed. *)
Theorem save_checkpoint_not_atomic paths name is_silent w :
  truthy name = true -> coherent paths name ->
  num_exist (fs w) (latest_paths paths) <> 1 ->
  num_exist (fs w) (named_paths paths (name_str name)) = 1 ->
  exists w',
    save_checkpoint paths name is_silent w =
      (Raise (FileNotFoundError (broken_msg "named")), w') /\
    fs w' = saved (fs w) (model w) (optimizer w) (latest_paths paths) /\
    write_events (trace w') =
      write_events (trace w) ++ pair_writes (latest_paths paths) /\
    num_exist (fs w') (latest_paths paths) = 2 /\
    fs w' !! voc_latest_optim paths = Some (OptimFile (optimizer w)) /\
    (voc_latest_weights paths <> voc_latest_optim paths ->
     fs w' !! voc_latest_weights paths =
       Some (WeightsFile (step (model w)) (weights (model w)))).
Proof.
  intros Ht Ha E En.
  exists (after_helper is_silent (latest_paths paths) false w).
  split.
  - assert (Ei : num_exist (fs w) (identity_paths paths name) = 1)
      by (unfold identity_paths; by rewrite Ht).
    rewrite save_checkpoint_broken_run by done.
    destruct (Z.eqb_spec (num_exist (fs w) (latest_paths paths)) 1);
      [lia|reflexivity].
  - simpl. repeat split.
    + by rewrite write_events_app, write_events_helper.
    + apply num_exist_saved.
    + unfold saved. by rewrite lookup_insert_eq.
    + intros Hne. unfold saved.
      rewrite lookup_insert_ne by done. by rewrite lookup_insert_eq.
Qed.

End CheckpointClaims.

(** * Properties of the training loop *)

Section TrainingClaims.

Context {W O float : Type} {collab : Collaborators W O float}.
Abbreviation World := (World W O float).
Abbreviation M := (M W O float).
Implicit Types (w : World) (hp : HParams float) (b : Batch).

(** One optimization step in closed form. *)
Lemma optimise_batch_run hp cuda on_cuda loss_func b w y_hat y :
  loss_inputs (mode (model w))
    (net_forward (weights (model w)) (bx b) (bm b)) (by_ b)
    = Return (y_hat, y) ->
  optimise_batch hp cuda on_cuda loss_func b w =
  (Return (step (model w) + 1),
   after_batch hp (on_cuda && (1 <? device_count cuda)) loss_func y_hat y w).
Proof.
  intros E.
  unfold optimise_batch, after_batch, clipped_weights, clip_events, forward,
    set_weights, print, emit, set_model, set_optimizer, lift, bind, gets, ret;
    simpl.
  rewrite E; simpl.
  destruct (voc_clip_grad_norm hp) as [max_norm|]; simpl.
  - destruct (isnan _); simpl; rewrite <- ?app_assoc; reflexivity.
  - rewrite <- ?app_assoc; reflexivity.
Qed.


(** ** Counting epochs in the trace *)

Abbreviation logs := (logs (W := W) (O := O) (float := float)).

Lemma epochs_logged_app (t1 t2 : list event) :
  epochs_logged (t1 ++ t2) = (epochs_logged t1 + epochs_logged t2)%nat.
Proof.
  unfold epochs_logged. by rewrite List.filter_app, length_app.
Qed.

Lemma logs_ret {A} (a : A) : logs (ret a) 0.
Proof. intros w a' w' [= _ <-]. lia. Qed.

Lemma logs_raise {A} e : logs (@raise W O float A e) 0.
Proof. intros w a w' [=]. Qed.

Lemma logs_gets {A} (f : World -> A) : logs (gets f) 0.
Proof. intros w a w' [= _ <-]. lia. Qed.

Lemma logs_lift {A} (o : outcome A) : logs (lift o) 0.
Proof. destruct o; [apply logs_ret | apply logs_raise]. Qed.

Lemma logs_emit ev : logs (emit ev) (if is_log ev then 1 else 0).
Proof.
  intros w a w' [= _ <-]. simpl. rewrite epochs_logged_app.
  unfold epochs_logged. simpl. by destruct (is_log ev).
Qed.

Lemma logs_emit_other ev : is_log ev = false -> logs (emit ev) 0.
Proof. intros E. pose proof (logs_emit ev) as L. by rewrite E in L. Qed.

Lemma logs_set_model m : logs (set_model m) 0.
Proof. intros w a w' [= _ <-]. simpl. lia. Qed.

Lemma logs_set_optimizer o : logs (set_optimizer o) 0.
Proof. intros w a w' [= _ <-]. simpl. lia. Qed.

Lemma logs_bind {A B} (c : M A) (k : A -> M B) n m :
  logs c n -> (forall a, logs (k a) m) -> logs (bind c k) (n + m).
Proof.
  intros Hc Hk w b w' E. unfold bind in E.
  destruct (c w) as [[a|e] w1] eqn:Ec; [|discriminate].
  rewrite (Hk a _ _ _ E), (Hc _ _ _ Ec). lia.
Qed.

Lemma logs_bind0 {A B} (c : M A) (k : A -> M B) :
  logs c 0 -> (forall a, logs (k a) 0) -> logs (bind c k) 0.
Proof. apply (logs_bind c k 0 0). Qed.

Lemma logs_if {A} (c : bool) (x y : M A) n :
  logs x n -> logs y n -> logs (if c then x else y) n.
Proof. by destruct c. Qed.

Lemma logs_for_each {A} (l : list A) (body : A -> M unit) n :
  (forall a, logs (body a) n) -> logs (for_each l body) (length l * n).
Proof.
  intros Hb. induction l as [|a l IH]; simpl.
  - apply logs_ret.
  - apply logs_bind; auto.
Qed.

Lemma logs_helper is_silent pd is_named :
  logs (@helper W O float is_silent pd is_named) 0.
Proof.
  intros w a w' E. rewrite helper_run in E.
  destruct (_ =? 1); [discriminate|]. injection E as _ <-.
  simpl. rewrite epochs_logged_app.
  unfold helper_events, epochs_logged.
  by destruct is_silent, (_ =? 0).
Qed.

Lemma logs_save_checkpoint paths name is_silent :
  logs (@save_checkpoint W O float paths name is_silent) 0.
Proof.
  unfold save_checkpoint. apply logs_bind0; [apply logs_helper|].
  intros _. apply logs_if; [apply logs_helper | apply logs_ret].
Qed.

Lemma logs_optimise_batch hp cuda on_cuda loss_func b :
  logs (optimise_batch hp cuda on_cuda loss_func b) 0.
Proof.
  intros w a w' E.
  destruct (loss_inputs (mode (model w))
              (net_forward (weights (model w)) (bx b) (bm b)) (by_ b))
    as [[y_hat y]|e] eqn:El.
  - rewrite (optimise_batch_run _ _ _ _ _ _ _ _ El) in E.
    injection E as _ <-. simpl. rewrite epochs_logged_app.
    unfold clip_events, epochs_logged; simpl.
    destruct (voc_clip_grad_norm hp); simpl; [destruct (isnan _)|]; simpl; lia.
  - unfold optimise_batch, forward, lift, emit, raise, set_model, bind, gets,
      ret in E; simpl in E.
    rewrite El in E. discriminate.
Qed.

Lemma logs_periodic_checkpoint hp paths e epochs i total_iters st :
  logs (periodic_checkpoint hp paths e epochs i total_iters st) 0.
Proof.
  unfold periodic_checkpoint.
  apply logs_bind0; [apply logs_lift|]. intros r.
  apply logs_bind0; [|intros; by apply logs_emit_other].
  apply logs_if; [|apply logs_ret].
  apply logs_bind0; [by apply logs_emit_other|].
  intros. apply logs_save_checkpoint.
Qed.

Lemma logs_batch_body hp cuda on_cuda paths loss_func e epochs total_iters ib :
  logs (batch_body hp cuda on_cuda paths loss_func e epochs total_iters ib) 0.
Proof.
  unfold batch_body.
  apply logs_bind0; [apply logs_optimise_batch|].
  intros. apply logs_periodic_checkpoint.
Qed.

Lemma logs_epoch_body hp cuda on_cuda paths loss_func train_set epochs
    total_iters e :
  logs (epoch_body hp cuda on_cuda paths loss_func train_set epochs
          total_iters e) 1.
Proof.
  unfold epoch_body.
  apply (logs_bind _ _ 0 1).
  { pose proof (logs_for_each (enumerate train_set 1) _ 0
                  (logs_batch_body hp cuda on_cuda paths loss_func e epochs
                     total_iters)) as L.
    by rewrite Nat.mul_0_r in L. }
  intros _. apply (logs_bind _ _ 0 1); [apply logs_save_checkpoint|].
  intros _. apply (logs_bind _ _ 1 0); [apply (logs_emit (EvLog _))|].
  intros _. by apply logs_emit_other.
Qed.

Lemma length_range lo hi : length (range lo hi) = Z.to_nat (hi - lo).
Proof. unfold range. by rewrite length_map, length_seq. Qed.

(** A run of [voc_train_loop] that returns has gone through as many epochs
    as line 97 computes. *)
Lemma voc_train_loop_epochs hp cuda on_cuda paths loss_func train_set
    test_set lr total_steps w w' :
  voc_train_loop hp cuda on_cuda paths loss_func train_set test_set lr
    total_steps w = (Return tt, w') ->
  exists epochs,
    voc_epochs total_steps (get_step (model w))
      (Z.of_nat (length train_set)) = Return epochs /\
    epochs_logged (trace w') =
      (epochs_logged (trace w) + Z.to_nat epochs)%nat.
Proof.
  unfold voc_train_loop. intros E.
  unfold bind at 1 2 3 4 in E. unfold gets at 1 2, set_optimizer at 1 in E.
  simpl in E.
  destruct (voc_epochs total_steps (get_step (model w))
              (Z.of_nat (length train_set))) as [epochs|e] eqn:Ee;
    simpl in E; [|discriminate].
  exists epochs. split; [reflexivity|].
  pose proof (logs_for_each (range 1 (epochs + 1))
                (epoch_body hp cuda on_cuda paths loss_func train_set epochs
                   (Z.of_nat (length train_set))) 1
                (logs_epoch_body _ _ _ _ _ _ _ _)) as L.
  specialize (L _ _ _ E). simpl in L.
  rewrite L, length_range. f_equal. lia.
Qed.


Lemma ceil_div_floor (r n : Z) :
  0 < n ->
  r / n + 1 = ceil_div r n + (if r mod n =? 0 then 1 else 0).
Proof.
  intros Hn. unfold ceil_div.
  destruct (Z.eqb_spec (r mod n) 0) as [E|E].
  - rewrite Z_div_zero_opp_full by done. lia.
  - rewrite Z_div_nz_opp_full by (done || lia). lia.
Qed.

(** C4, as amended: for a positive number of iterations per epoch the epoch
    count of line 97 is [floor((total_steps - step) / total_iters) + 1].
    This is the ceiling of the quotient when [total_iters] does not divide the
    remaining steps and one more than the ceiling when it does; a run of
    [voc_train_loop] that returns has gone through that many epochs. *)
Theorem voc_epochs_floor_plus_one total_steps st total_iters :
  0 < total_iters ->
  let r := total_steps - st in
  voc_epochs total_steps st total_iters = Return (r / total_iters + 1) /\
  r / total_iters + 1 =
    ceil_div r total_iters + (if r mod total_iters =? 0 then 1 else 0) /\
  forall hp cuda on_cuda paths loss_func train_set test_set lr w,
    Z.of_nat (length train_set) = total_iters ->
    get_step (model w) = st ->
    let run := voc_train_loop hp cuda on_cuda paths loss_func train_set
                 test_set lr total_steps w in
    fst run = Return tt ->
    epochs_logged (trace (snd run)) =
      (epochs_logged (trace w) + Z.to_nat (r / total_iters + 1))%nat.
Proof.
  intros Hn r.
  assert (E : voc_epochs total_steps st total_iters
              = Return (r / total_iters + 1)).
  { unfold voc_epochs, floordiv.
    destruct (Z.eqb_spec total_iters 0); [lia | reflexivity]. }
  split; [exact E|]. split; [by apply ceil_div_floor|].
  intros hp cuda on_cuda paths loss_func train_set test_set lr w Hl Hs run Hr.
  subst run.
  destruct (voc_train_loop hp cuda on_cuda paths loss_func train_set test_set
              lr total_steps w) as [o w'] eqn:Erun.
  simpl in Hr. subst o.
  destruct (voc_train_loop_epochs _ _ _ _ _ _ _ _ _ _ _ Erun)
    as (epochs & Ee & Hc).
  rewrite Hl, Hs, E in Ee. injection Ee as <-. exact Hc.
Qed.

(** C5: a batch whose clipped gradient norm is not-a-number prints the
    warning and goes on: [optimizer.step()] is applied to the clipped
    parameters, the step counter has advanced by exactly one, nothing is
    raised, and the iteration continues with the periodic checkpoint of the
    advanced step. *)
Theorem nan_grad_norm_tolerated hp cuda on_cuda paths loss_func e epochs
    total_iters i b w max_norm y_hat y :
  voc_clip_grad_norm hp = Some max_norm ->
  loss_inputs (mode (model w))
    (net_forward (weights (model w)) (bx b) (bm b)) (by_ b)
    = Return (y_hat, y) ->
  let clipped :=
    clip_grad_norm_
      (backward (zero_grad (weights (model w))) loss_func y_hat y) max_norm in
  isnan (snd clipped) = true ->
  exists w',
    optimise_batch hp cuda on_cuda loss_func b w
      = (Return (step (model w) + 1), w') /\
    get_step (model w') = get_step (model w) + 1 /\
    weights (model w') = snd (adam_step (optimizer w) (fst clipped)) /\
    optimizer w' = fst (adam_step (optimizer w) (fst clipped)) /\
    fs w' = fs w /\
    trace w' = trace w ++
      [EvForward (on_cuda && (1 <? device_count cuda));
       EvLoss loss_func y_hat y; EvZeroGrad; EvBackward; EvClipGradNorm;
       EvPrint "grad_norm was NaN!"; EvOptimStep] /\
    batch_body hp cuda on_cuda paths loss_func e epochs total_iters (i, b) w
      = periodic_checkpoint hp paths e epochs i total_iters
          (step (model w) + 1) w'.
Proof.
  intros Hc El clipped Hnan.
  pose proof (optimise_batch_run hp cuda on_cuda loss_func b w y_hat y El)
    as R.
  eexists. split; [exact R|].
  unfold after_batch, clipped_weights, clip_events. rewrite Hc.
  fold clipped. rewrite Hnan. simpl.
  repeat split.
  unfold batch_body, bind. simpl. rewrite R.
  unfold after_batch, clipped_weights, clip_events. rewrite Hc.
  fold clipped. rewrite Hnan. reflexivity.
Qed.

(** C6: with the accelerator selected and a batch size that the number of
    visible devices does not divide, [main] raises the sizing [ValueError]
    with the world untouched: nothing has been printed, built, restored or
    trained.  Batch size 32 on two devices passes the check; 33 on two
    devices raises. *)
Theorem batch_size_checked_at_startup args hp cuda paths w :
  (force_cpu args = false -> is_available cuda = true ->
   0 < device_count cuda ->
   default (voc_batch_size hp) (arg_batch_size args) mod device_count cuda
     <> 0 ->
   main args hp cuda paths w =
   (Raise (ValueError "`batch_size` must be evenly divisible by n_gpus!"),
    w)) /\
  select_device false {| is_available := true; device_count := 2 |} 32 w
    = (Return true, w) /\
  select_device false {| is_available := true; device_count := 2 |} 33 w
    = (Raise (ValueError "`batch_size` must be evenly divisible by n_gpus!"),
       w).
Proof.
  split; [|split; reflexivity].
  intros Hf Ha Hd Hm.
  unfold main. unfold bind at 1. unfold select_device.
  rewrite Hf, Ha. simpl.
  unfold bind, lift, pymod.
  destruct (Z.eqb_spec (device_count cuda) 0); [lia|]. simpl.
  destruct (Z.eqb_spec
              (default (voc_batch_size hp) (arg_batch_size args)
                 mod device_count cuda) 0); [contradiction|].
  reflexivity.
Qed.

(** C7: in ['RAW'] mode a prediction of shape [[B; T; C]] and a target of
    shape [[B; T]] reach the loss function as [[B; C; T; 1]] and
    [[B; T; 1]], the target keeping its element type; in ['MOL'] mode the
    prediction is passed as it is and the target as a floating-point
    [[B; T; 1]]. *)
Theorem loss_call_shapes hp cuda on_cuda loss_func b w B T C :
  let y_hat := net_forward (weights (model w)) (bx b) (bm b) in
  let run := optimise_batch hp cuda on_cuda loss_func b w in
  shape (by_ b) = [B; T] ->
  shape y_hat = [B; T; C] ->
  (mode (model w) = "RAW" ->
   let p := {| shape := [B; C; T; 1]; dt := dt y_hat |} in
   let t := {| shape := [B; T; 1]; dt := dt (by_ b) |} in
   loss_inputs "RAW" y_hat (by_ b) = Return (p, t) /\
   In (EvLoss loss_func p t) (trace (snd run))) /\
  (mode (model w) = "MOL" ->
   let t := {| shape := [B; T; 1]; dt := Float32 |} in
   loss_inputs "MOL" y_hat (by_ b) = Return (y_hat, t) /\
   In (EvLoss loss_func y_hat t) (trace (snd run))).
Proof.
  intros y_hat run Hy Hp.
  assert (Traced : forall p t,
             loss_inputs (mode (model w)) y_hat (by_ b) = Return (p, t) ->
             In (EvLoss loss_func p t) (trace (snd run))).
  { intros p t El. unfold run.
    rewrite (optimise_batch_run _ _ _ _ _ _ _ _ El). simpl.
    apply in_or_app. right. simpl. auto. }
  split; intros Hm; simpl.
  - assert (El : loss_inputs "RAW" y_hat (by_ b) =
                 Return ({| shape := [B; C; T; 1]; dt := dt y_hat |},
                         {| shape := [B; T; 1]; dt := dt (by_ b) |})).
    { unfold loss_inputs, transpose, unsqueeze_last. simpl.
      rewrite Hp, Hy. reflexivity. }
    split; [exact El|]. apply Traced. by rewrite Hm.
  - assert (El : loss_inputs "MOL" y_hat (by_ b) =
                 Return (y_hat, {| shape := [B; T; 1]; dt := Float32 |})).
    { unfold loss_inputs, unsqueeze_last, to_float. simpl.
      rewrite Hy. reflexivity. }
    split; [exact El|]. apply Traced. by rewrite Hm.
Qed.

End TrainingClaims.


(** * Further properties of the checkpoint protocol *)

Section CheckpointProtocol.

Context {W O float : Type}.
Abbreviation World := (World W O float).
Implicit Types (w : World) (pd : path_dict) (f : gmap path (blob W O float)).

(** The world [save_checkpoint] returns, when it returns. *)
Lemma save_checkpoint_returns paths name is_silent w w1 :
  save_checkpoint paths name is_silent w = (Return tt, w1) ->
  let wl := after_helper is_silent (latest_paths paths) false w in
  num_exist (fs w) (latest_paths paths) <> 1 /\
  (truthy name = false -> w1 = wl) /\
  (truthy name = true ->
   num_exist (fs wl) (named_paths paths (name_str name)) <> 1 /\
   w1 = after_helper is_silent (named_paths paths (name_str name)) true wl).
Proof.
  intros E wl. rewrite save_checkpoint_run, helper_run in E. fold wl in E.
  destruct (Z.eqb_spec (num_exist (fs w) (latest_paths paths)) 1) as [E1|E1];
    [discriminate|].
  split; [exact E1|].
  destruct (truthy name).
  - split; [discriminate|]. intros _. rewrite helper_run in E.
    destruct (Z.eqb_spec (num_exist (fs wl)
                            (named_paths paths (name_str name))) 1);
      [discriminate|].
    by injection E as <-.
  - split; [|discriminate]. intros _. by injection E as <-.
Qed.

(** The files of the identity hold the state in memory after a save that
    returned. *)
Lemma save_checkpoint_stores paths name is_silent w w1 :
  save_checkpoint paths name is_silent w = (Return tt, w1) ->
  voc_latest_weights paths <> voc_latest_optim paths ->
  let pd := identity_paths paths name in
  fs w1 !! pd_w pd = Some (WeightsFile (step (model w)) (weights (model w))) /\
  fs w1 !! pd_o pd = Some (OptimFile (optimizer w)) /\
  model w1 = model w /\ optimizer w1 = optimizer w.
Proof.
  intros E Hne pd.
  destruct (save_checkpoint_returns _ _ _ _ _ E) as (_ & Hl & Hn).
  subst pd. unfold identity_paths.
  destruct (truthy name).
  - destruct (Hn eq_refl) as [_ ->]. simpl. unfold saved at 1 3.
    pose proof (named_paths_distinct paths (name_str name)) as Hd.
    rewrite lookup_insert_ne by done.
    by rewrite !lookup_insert_eq.
  - rewrite (Hl eq_refl). simpl. unfold saved.
    rewrite lookup_insert_ne by done.
    by rewrite !lookup_insert_eq.
Qed.

(** Loading a well-formed pair. *)
Lemma restore_checkpoint_loads paths name create_if_missing w st wt o :
  let pd := identity_paths paths name in
  fs w !! pd_w pd = Some (WeightsFile st wt) ->
  fs w !! pd_o pd = Some (OptimFile o) ->
  restore_checkpoint paths name create_if_missing w =
  (Return tt,
   {| fs := fs w;
      model := {| step := st; mode := mode (model w); weights := wt |};
      optimizer := o;
      trace := trace w ++ load_events (kind_str (truthy name)) pd |}).
Proof.
  intros pd Hw Ho. rewrite restore_checkpoint_run. fold pd.
  assert (E : num_exist (fs w) pd = 2).
  { unfold num_exist, path_exists. by rewrite Hw, Ho. }
  rewrite E. simpl.
  unfold model_load, optimizer_load, print, emit, bind, gets, set_model,
    set_optimizer; simpl.
  rewrite Hw. simpl. rewrite Ho. simpl.
  unfold load_events. rewrite <- !app_assoc. reflexivity.
Qed.

(** X1: what [save_checkpoint] stored for an identity is what
    [restore_checkpoint] on the same identity loads back: whatever model and
    optimizer are in memory at the time of the restore, it returns with the
    saved step, parameters and optimizer state, the file system untouched. *)
Theorem save_restore_round_trip paths name is_silent create_if_missing
    w w1 w2 :
  save_checkpoint paths name is_silent w = (Return tt, w1) ->
  voc_latest_weights paths <> voc_latest_optim paths ->
  fs w2 = fs w1 ->
  restore_checkpoint paths name create_if_missing w2 =
  (Return tt,
   {| fs := fs w2;
      model := {| step := step (model w); mode := mode (model w2);
                  weights := weights (model w) |};
      optimizer := optimizer w;
      trace := trace w2 ++
               load_events (kind_str (truthy name))
                 (identity_paths paths name) |}).
Proof.
  intros E Hne Hf.
  destruct (save_checkpoint_stores _ _ _ _ _ E Hne) as (Hw & Ho & _).
  rewrite <- Hf in Hw, Ho.
  by apply restore_checkpoint_loads.
Qed.

(** The loading branch never touches the file system and writes nothing. *)
Lemma load_pair_keeps_files (s : string) pd w :
  let r := (print ("Restoring from " +:+ s +:+ " checkpoint...") ;;
            print ("Loading " +:+ s +:+ " weights: " +:+ path_str (pd_w pd)) ;;
            model_load (pd_w pd) ;;
            print ("Loading " +:+ s +:+ " optimizer state: "
                   +:+ path_str (pd_o pd)) ;;
            optimizer_load (pd_o pd)) w in
  fs (snd r) = fs w /\ write_events (trace (snd r)) = write_events (trace w).
Proof.
  unfold model_load, optimizer_load, print, emit, bind, gets, set_model,
    set_optimizer, raise; simpl.
  destruct (fs w !! pd_w pd) as [[st wt|o]|]; simpl;
    [destruct (fs w !! pd_o pd) as [[st' wt'|o]|] | | ]; simpl;
    rewrite ?write_events_app; simpl; rewrite ?app_nil_r; done.
Qed.

(** X2: [restore_checkpoint] without [create_if_missing], and with it when
    both files are present, never writes: whether it returns or raises, the
    file system is as before and no write was issued. *)
Theorem restore_checkpoint_read_only paths name create_if_missing w :
  create_if_missing = false \/
  num_exist (fs w) (identity_paths paths name) = 2 ->
  let w' := snd (restore_checkpoint paths name create_if_missing w) in
  fs w' = fs w /\ write_events (trace w') = write_events (trace w).
Proof.
  intros H. simpl. rewrite restore_checkpoint_run.
  destruct (Z.eqb_spec (num_exist (fs w) (identity_paths paths name)) 2)
    as [E|E].
  - apply load_pair_keeps_files.
  - destruct H as [->|H]; [done|contradiction].
Qed.

Lemma path_exists_saved_mono f (m : WaveRNN W) (o : Adam O float) pd q :
  path_exists f q = true -> path_exists (saved f m o pd) q = true.
Proof.
  intros H. unfold saved. rewrite !path_exists_insert, H.
  by rewrite !orb_true_r.
Qed.

Lemma num_exist_saved_mono f (m : WaveRNN W) (o : Adam O float) pd pd' :
  num_exist f pd' = 2 -> num_exist (saved f m o pd) pd' = 2.
Proof.
  unfold num_exist. intros H.
  destruct (path_exists f (pd_w pd')) eqn:Ew, (path_exists f (pd_o pd')) eqn:Eo;
    simpl in H; try lia.
  by rewrite !path_exists_saved_mono.
Qed.

(** X3: a [save_checkpoint] that returns leaves the latest pair fully
    present and, when a name was given, the named pair as well; a
    [restore_checkpoint] that returns leaves the pair of its identity fully
    present, whether it loaded the pair or created it. *)
Theorem checkpoint_complete_on_return paths name w w1 :
  (forall is_silent,
     save_checkpoint paths name is_silent w = (Return tt, w1) ->
     num_exist (fs w1) (latest_paths paths) = 2 /\
     (truthy name = true ->
      num_exist (fs w1) (named_paths paths (name_str name)) = 2)) /\
  (forall create_if_missing,
     restore_checkpoint paths name create_if_missing w = (Return tt, w1) ->
     num_exist (fs w1) (identity_paths paths name) = 2).
Proof.
  assert (S : forall is_silent,
             save_checkpoint paths name is_silent w = (Return tt, w1) ->
             num_exist (fs w1) (latest_paths paths) = 2 /\
             (truthy name = true ->
              num_exist (fs w1) (named_paths paths (name_str name)) = 2)).
  { intros is_silent E.
    destruct (save_checkpoint_returns _ _ _ _ _ E) as (_ & Hl & Hn).
    destruct (truthy name).
    - destruct (Hn eq_refl) as [_ ->]. simpl. split.
      + apply num_exist_saved_mono, num_exist_saved.
      + intros _. apply num_exist_saved.
    - rewrite (Hl eq_refl). simpl.
      split; [apply num_exist_saved|discriminate]. }
  split; [exact S|].
  intros create_if_missing E. rewrite restore_checkpoint_run in E.
  destruct (Z.eqb_spec (num_exist (fs w) (identity_paths paths name)) 2)
    as [E2|E2].
  - pose proof (load_pair_keeps_files (kind_str (truthy name))
                  (identity_paths paths name) w) as [Hf _].
    simpl in Hf. rewrite E in Hf. simpl in Hf. by rewrite Hf.
  - destruct create_if_missing; [|discriminate].
    destruct (S false E) as [Hl Hn].
    unfold identity_paths. destruct (truthy name); auto.
Qed.

(** Every outcome of [save_checkpoint]: it stops at the latest pair, stops
    at the named pair, or completes. *)
Lemma save_checkpoint_outcomes paths name is_silent w :
  let wl := after_helper is_silent (latest_paths paths) false w in
  let npd := named_paths paths (name_str name) in
  save_checkpoint paths name is_silent w =
  if num_exist (fs w) (latest_paths paths) =? 1
  then (Raise (FileNotFoundError (broken_msg "latest")), w)
  else if truthy name
       then if num_exist (fs wl) npd =? 1
            then (Raise (FileNotFoundError (broken_msg "named")), wl)
            else (Return tt, after_helper is_silent npd true wl)
       else (Return tt, wl).
Proof.
  intros wl npd. rewrite save_checkpoint_run, helper_run. fold wl.
  destruct (_ =? 1); [reflexivity|].
  destruct (truthy name); [|reflexivity].
  by rewrite helper_run.
Qed.

(** X4: whatever its outcome, [save_checkpoint] never removes a file and
    changes no file other than the two latest files and, when a name is
    given, the two files of the named pair. *)
Theorem save_checkpoint_touches_only_its_files paths name is_silent w q :
  let w' := snd (save_checkpoint paths name is_silent w) in
  let npd := named_paths paths (name_str name) in
  (path_exists (fs w) q = true -> path_exists (fs w') q = true) /\
  (q <> voc_latest_weights paths -> q <> voc_latest_optim paths ->
   (truthy name = true -> q <> pd_w npd /\ q <> pd_o npd) ->
   fs w' !! q = fs w !! q).
Proof.
  intros w' npd. subst w'. rewrite save_checkpoint_outcomes. fold npd.
  destruct (_ =? 1); [done|].
  destruct (truthy name); [destruct (_ =? 1)|]; simpl; split;
    try (intros H; repeat apply path_exists_saved_mono; exact H).
  - intros H1 H2 _. by rewrite saved_other.
  - intros H1 H2 H3. destruct (H3 eq_refl) as [H4 H5].
    by rewrite !saved_other.
  - intros H1 H2 _. by rewrite saved_other.
Qed.

Lemma helper_events_silent pd is_named n :
  List.filter is_print (helper_events true pd is_named n) = [].
Proof. unfold helper_events. by destruct (n =? 0). Qed.

Lemma helper_events_actions is_silent pd is_named n :
  List.filter (fun ev => negb (is_print ev))
    (helper_events is_silent pd is_named n) =
  List.filter (fun ev => negb (is_print ev))
    (helper_events true pd is_named n).
Proof. unfold helper_events. by destruct is_silent, (n =? 0). Qed.

(** X5: [is_silent] only mutes the console.  A silent [save_checkpoint] has
    the outcome, the files, and the sequence of actions other than printing
    of the same call made aloud, and it prints nothing. *)
Theorem is_silent_only_mutes paths name w :
  let quiet := save_checkpoint paths name true w in
  let aloud := save_checkpoint paths name false w in
  fst quiet = fst aloud /\
  fs (snd quiet) = fs (snd aloud) /\
  List.filter (fun ev => negb (is_print ev)) (trace (snd quiet)) =
    List.filter (fun ev => negb (is_print ev)) (trace (snd aloud)) /\
  List.filter is_print (trace (snd quiet)) = List.filter is_print (trace w).
Proof.
  simpl. rewrite !save_checkpoint_outcomes.
  destruct (_ =? 1); [done|].
  destruct (truthy name); simpl.
  - destruct (_ =? 1); simpl;
      rewrite !List.filter_app, ?helper_events_silent, ?app_nil_r;
      repeat split; try done;
      by rewrite !(helper_events_actions false).
  - rewrite !List.filter_app, ?helper_events_silent, ?app_nil_r.
    repeat split; try done. by rewrite !(helper_events_actions false).
Qed.

End CheckpointProtocol.

(** * Further properties of the training loop *)

Section TrainingRuns.

Context {W O float : Type} {collab : Collaborators W O float}.
Abbreviation World := (World W O float).
Abbreviation M := (M W O float).
Abbreviation adds := (adds (W := W) (O := O) (float := float)).
Implicit Types (w : World) (hp : HParams float) (b : Batch).

Lemma count_events_app p (t1 t2 : list event) :
  count_events p (t1 ++ t2) = count_events p t1 + count_events p t2.
Proof.
  unfold count_events. rewrite List.filter_app, length_app. lia.
Qed.

Lemma adds_ret {A} p (a : A) : adds p (ret a) 0.
Proof. intros w a' w' [= _ <-]. lia. Qed.

Lemma adds_raise {A} p e : adds p (@raise W O float A e) 0.
Proof. intros w a w' [=]. Qed.

Lemma adds_gets {A} p (f : World -> A) : adds p (gets f) 0.
Proof. intros w a w' [= _ <-]. lia. Qed.

Lemma adds_lift {A} p (o : outcome A) : adds p (lift o) 0.
Proof. destruct o; [apply adds_ret | apply adds_raise]. Qed.

Lemma adds_emit p ev : adds p (emit ev) (if p ev then 1 else 0).
Proof.
  intros w a w' [= _ <-]. simpl. rewrite count_events_app.
  unfold count_events. simpl. destruct (p ev); simpl; lia.
Qed.

Lemma adds_emit_other p ev : p ev = false -> adds p (emit ev) 0.
Proof. intros E. pose proof (adds_emit p ev) as L. by rewrite E in L. Qed.

Lemma adds_set_model p m : adds p (set_model m) 0.
Proof. intros w a w' [= _ <-]. simpl. lia. Qed.

Lemma adds_set_optimizer p o : adds p (set_optimizer o) 0.
Proof. intros w a w' [= _ <-]. simpl. lia. Qed.

Lemma adds_bind {A B} p (c : M A) (k : A -> M B) n m :
  adds p c n -> (forall a, adds p (k a) m) -> adds p (bind c k) (n + m).
Proof.
  intros Hc Hk w b w' E. unfold bind in E.
  destruct (c w) as [[a|e] w1] eqn:Ec; [|discriminate].
  rewrite (Hk a _ _ _ E), (Hc _ _ _ Ec). lia.
Qed.

Lemma adds_if {A} p (c : bool) (x y : M A) n :
  adds p x n -> adds p y n -> adds p (if c then x else y) n.
Proof. by destruct c. Qed.

Lemma adds_for_each {A} p (l : list A) (body : A -> M unit) n :
  (forall a, adds p (body a) n) ->
  adds p (for_each l body) (Z.of_nat (length l) * n).
Proof.
  intros Hb. induction l as [|a l IH].
  - apply adds_ret.
  - cbn [for_each length].
    replace (Z.of_nat (S (length l)) * n)
      with (n + Z.of_nat (length l) * n) by lia.
    apply adds_bind; auto.
Qed.

(** Saving performs no optimizer update. *)
Lemma updates_helper is_silent pd is_named :
  adds is_optim_step (@helper W O float is_silent pd is_named) 0.
Proof.
  intros w a w' E. rewrite helper_run in E.
  destruct (_ =? 1); [discriminate|]. injection E as _ <-.
  simpl. rewrite count_events_app.
  unfold helper_events, count_events.
  by destruct is_silent, (_ =? 0).
Qed.

Lemma updates_save_checkpoint paths name is_silent :
  adds is_optim_step (@save_checkpoint W O float paths name is_silent) 0.
Proof.
  unfold save_checkpoint.
  apply (adds_bind _ _ _ 0 0); [apply updates_helper|].
  intros _. apply adds_if; [apply updates_helper | apply adds_ret].
Qed.

(** A batch performs exactly one. *)
Lemma updates_optimise_batch hp cuda on_cuda loss_func b :
  adds is_optim_step (optimise_batch hp cuda on_cuda loss_func b) 1.
Proof.
  intros w a w' E.
  destruct (loss_inputs (mode (model w))
              (net_forward (weights (model w)) (bx b) (bm b)) (by_ b))
    as [[y_hat y]|e] eqn:El.
  - rewrite (optimise_batch_run _ _ _ _ _ _ _ _ El) in E.
    injection E as _ <-. simpl. rewrite count_events_app.
    unfold clip_events, count_events; simpl.
    destruct (voc_clip_grad_norm hp); simpl; [destruct (isnan _)|];
      simpl; lia.
  - unfold optimise_batch, forward, lift, emit, raise, set_model, bind, gets,
      ret in E; simpl in E.
    rewrite El in E. discriminate.
Qed.

Lemma updates_periodic_checkpoint hp paths e epochs i total_iters st :
  adds is_optim_step
    (periodic_checkpoint hp paths e epochs i total_iters st) 0.
Proof.
  unfold periodic_checkpoint.
  apply (adds_bind _ _ _ 0 0); [apply adds_lift|]. intros r.
  apply (adds_bind _ _ _ 0 0); [|intros; by apply adds_emit_other].
  apply adds_if; [|apply adds_ret].
  apply (adds_bind _ _ _ 0 0); [by apply adds_emit_other|].
  intros. apply updates_save_checkpoint.
Qed.

Lemma updates_batch_body hp cuda on_cuda paths loss_func e epochs total_iters
    ib :
  adds is_optim_step
    (batch_body hp cuda on_cuda paths loss_func e epochs total_iters ib) 1.
Proof.
  unfold batch_body.
  apply (adds_bind _ _ _ 1 0); [apply updates_optimise_batch|].
  intros. apply updates_periodic_checkpoint.
Qed.

Lemma length_enumerate {A} (l : list A) start :
  length (enumerate l start) = length l.
Proof.
  revert start. induction l as [|a l IH]; intros start; simpl; [done|].
  by rewrite IH.
Qed.

Lemma updates_epoch_body hp cuda on_cuda paths loss_func train_set epochs
    total_iters e :
  adds is_optim_step
    (epoch_body hp cuda on_cuda paths loss_func train_set epochs
       total_iters e)
    (Z.of_nat (length train_set)).
Proof.
  unfold epoch_body.
  replace (Z.of_nat (length train_set))
    with (Z.of_nat (length (enumerate train_set 1)) * 1 + (0 + (0 + 0)))
    by (rewrite length_enumerate; lia).
  apply adds_bind.
  { apply adds_for_each. intros ib. apply updates_batch_body. }
  intros _. apply adds_bind; [apply updates_save_checkpoint|].
  intros _. apply adds_bind; [by apply adds_emit_other|].
  intros _. by apply adds_emit_other.
Qed.

(** [voc_train_loop] after its first three lines. *)
Lemma voc_train_loop_run hp cuda on_cuda paths loss_func train_set test_set
    new_lr total_steps w :
  let total_iters := Z.of_nat (length train_set) in
  voc_train_loop hp cuda on_cuda paths loss_func train_set test_set new_lr
    total_steps w =
  match voc_epochs total_steps (get_step (model w)) total_iters with
  | Return epochs =>
      for_each (range 1 (epochs + 1))
        (epoch_body hp cuda on_cuda paths loss_func train_set epochs
           total_iters) (with_lr new_lr w)
  | Raise e => (Raise e, with_lr new_lr w)
  end.
Proof.
  unfold voc_train_loop, with_lr, bind, gets, set_optimizer, lift; simpl.
  by destruct (voc_epochs _ _ _).
Qed.

Lemma voc_epochs_returns total_steps st total_iters epochs :
  0 <= total_iters ->
  voc_epochs total_steps st total_iters = Return epochs ->
  0 < total_iters /\ epochs = (total_steps - st) / total_iters + 1.
Proof.
  unfold voc_epochs, floordiv. intros Hn.
  destruct (Z.eqb_spec total_iters 0); [discriminate|].
  intros [= <-]. split; [lia|reflexivity].
Qed.

(** X6: a run of [voc_train_loop] that returns had a non-empty training set
    and performed exactly [max(0, epochs)] times [len(train_set)] optimizer
    updates, with [epochs] as computed on line 97.  When steps remained
    ([total_steps >= get_step()]) that is more than the remaining steps, by
    at most one epoch; when none remained it is zero. *)
Theorem voc_train_loop_updates hp cuda on_cuda paths loss_func train_set
    test_set new_lr total_steps w w' :
  voc_train_loop hp cuda on_cuda paths loss_func train_set test_set new_lr
    total_steps w = (Return tt, w') ->
  let total_iters := Z.of_nat (length train_set) in
  let r := total_steps - get_step (model w) in
  let n := updates (trace w') - updates (trace w) in
  0 < total_iters /\
  n = Z.max 0 (r / total_iters + 1) * total_iters /\
  (0 <= r -> r < n <= r + total_iters) /\
  (r < 0 -> n = 0).
Proof.
  intros E total_iters r n. rewrite voc_train_loop_run in E.
  fold total_iters in E.
  destruct (voc_epochs total_steps (get_step (model w)) total_iters)
    as [epochs|e] eqn:Ee; [|discriminate].
  apply voc_epochs_returns in Ee as [Hn ->]; [|unfold total_iters; lia].
  fold r in E.
  assert (N : n = Z.max 0 (r / total_iters + 1) * total_iters).
  { pose proof (adds_for_each is_optim_step
                  (range 1 (r / total_iters + 1 + 1))
                  (epoch_body hp cuda on_cuda paths loss_func train_set
                     (r / total_iters + 1) total_iters) total_iters
                  (updates_epoch_body _ _ _ _ _ _ _ _)) as L.
    specialize (L _ _ _ E). simpl in L. rewrite length_range in L.
    unfold n, updates. rewrite L. lia. }
  split; [exact Hn|]. split; [exact N|].
  pose proof (Z.mul_div_le r total_iters Hn).
  pose proof (Z.mul_succ_div_gt r total_iters Hn).
  split; intros Hr.
  - assert (0 <= r / total_iters) by (apply Z.div_pos; lia). nia.
  - assert (r / total_iters < 0) by (apply Z.div_lt_upper_bound; lia). nia.
Qed.

(** X7: the degenerate runs.  On an empty training set [voc_train_loop]
    raises [ZeroDivisionError]; when the model is already past [total_steps]
    it returns at once.  In both cases the learning rate has been set and
    nothing else has happened. *)
Theorem voc_train_loop_degenerate hp cuda on_cuda paths loss_func train_set
    test_set new_lr total_steps w :
  (train_set = [] ->
   voc_train_loop hp cuda on_cuda paths loss_func train_set test_set new_lr
     total_steps w = (Raise ZeroDivisionError, with_lr new_lr w)) /\
  (train_set <> [] -> total_steps < get_step (model w) ->
   voc_train_loop hp cuda on_cuda paths loss_func train_set test_set new_lr
     total_steps w = (Return tt, with_lr new_lr w)).
Proof.
  rewrite voc_train_loop_run. split.
  - intros ->. reflexivity.
  - intros Hne Hs.
    assert (Hn : 0 < Z.of_nat (length train_set)).
    { destruct train_set; [done|]. simpl. lia. }
    unfold voc_epochs, floordiv.
    destruct (Z.eqb_spec (Z.of_nat (length train_set)) 0); [lia|].
    assert ((total_steps - get_step (model w)) / Z.of_nat (length train_set)
            < 0) by (apply Z.div_lt_upper_bound; lia).
    unfold range.
    replace (Z.to_nat _) with 0%nat by lia. reflexivity.
Qed.

End TrainingRuns.

(** * Further properties: composition, snapshots, loss inputs, start-up *)

Section CheckpointComposition.

Context {W O float : Type}.
Abbreviation World := (World W O float).
Implicit Types (w : World) (pd : path_dict) (f : gmap path (blob W O float)).

(** X8: restoring the latest checkpoint and saving it again at once leaves
    every file as it was. *)
Theorem restore_then_save_keeps_files paths name create_if_missing is_silent
    w st wt o :
  truthy name = false ->
  voc_latest_weights paths <> voc_latest_optim paths ->
  fs w !! voc_latest_weights paths = Some (WeightsFile st wt) ->
  fs w !! voc_latest_optim paths = Some (OptimFile o) ->
  exists w1 w2,
    restore_checkpoint paths name create_if_missing w = (Return tt, w1) /\
    save_checkpoint paths name is_silent w1 = (Return tt, w2) /\
    fs w2 = fs w /\ model w2 = model w1 /\ optimizer w2 = optimizer w1.
Proof.
  intros Ht Hne Hw Ho.
  pose proof (restore_checkpoint_loads paths name create_if_missing w st wt o)
    as R.
  unfold identity_paths in R. rewrite Ht in R. specialize (R Hw Ho).
  eexists _, _. split; [exact R|].
  rewrite save_checkpoint_outcomes, Ht. simpl.
  assert (E : num_exist (fs w) (latest_paths paths) = 2).
  { unfold num_exist, path_exists. simpl. by rewrite Hw, Ho. }
  rewrite E. simpl. split; [reflexivity|]. simpl.
  split; [|done]. unfold saved. simpl.
  rewrite (insert_id (fs w) _ _ Hw). by apply insert_id.
Qed.

(** X9: rolling back.  Restoring a named snapshot and then saving without a
    name makes the latest pair a copy of the snapshot. *)
Theorem restore_named_then_save_copies paths name create_if_missing is_silent
    w st wt o :
  truthy name = true ->
  voc_latest_weights paths <> voc_latest_optim paths ->
  num_exist (fs w) (latest_paths paths) <> 1 ->
  let npd := named_paths paths (name_str name) in
  fs w !! pd_w npd = Some (WeightsFile st wt) ->
  fs w !! pd_o npd = Some (OptimFile o) ->
  exists w1 w2,
    restore_checkpoint paths name create_if_missing w = (Return tt, w1) /\
    save_checkpoint paths None is_silent w1 = (Return tt, w2) /\
    fs w2 !! voc_latest_weights paths = Some (WeightsFile st wt) /\
    fs w2 !! voc_latest_optim paths = Some (OptimFile o).
Proof.
  intros Ht Hne El npd Hw Ho.
  pose proof (restore_checkpoint_loads paths name create_if_missing w st wt o)
    as R.
  unfold identity_paths in R. rewrite Ht in R. specialize (R Hw Ho).
  eexists _, _. split; [exact R|].
  rewrite save_checkpoint_outcomes. simpl.
  destruct (Z.eqb_spec (num_exist (fs w) (latest_paths paths)) 1);
    [contradiction|].
  split; [reflexivity|]. simpl. unfold saved. simpl.
  rewrite lookup_insert_ne by done. by rewrite !lookup_insert_eq.
Qed.

Lemma str_of_Z_inj (a b : Z) : str_of_Z a = str_of_Z b -> a = b.
Proof.
  unfold str_of_Z. intros E.
  assert (N : forall z, Z.to_int z <> Decimal.Pos Decimal.Nil /\
                        Z.to_int z <> Decimal.Neg Decimal.Nil).
  { intros [|p|p]; simpl; split; try discriminate;
      intros [= H]; by apply DecimalPos.Unsigned.to_uint_nonnil in H. }
  apply DecimalZ.to_int_inj.
  assert (S : Some (Z.to_int a) = Some (Z.to_int b)).
  { rewrite <- (NilZero.isi (Z.to_int a)) by apply N.
    rewrite <- (NilZero.isi (Z.to_int b)) by apply N.
    by rewrite E. }
  by injection S.
Qed.

Lemma string_append_assoc (a b c : string) :
  (a +:+ b) +:+ c = a +:+ (b +:+ c).
Proof.
  induction a as [|x a IH]; [reflexivity|].
  change (String x ((a +:+ b) +:+ c) = String x (a +:+ (b +:+ c))).
  by rewrite IH.
Qed.

Lemma joinpath_inj (dir : path) (a b : string) :
  joinpath dir a = joinpath dir b -> a = b.
Proof. unfold joinpath. intros E. apply app_inv_head in E. congruence. Qed.

Lemma ckpt_name_inj (s1 s2 : Z) :
  ckpt_name s1 = ckpt_name s2 -> s1 / 1000 = s2 / 1000.
Proof.
  unfold ckpt_name. intros E.
  apply append_suffix_inj in E.
  apply append_same_length in E as [E _]; [|reflexivity].
  by apply str_of_Z_inj.
Qed.

(** X10: snapshots are filed by thousands of steps.  Two steps in the same
    thousand share both snapshot files, so the later snapshot replaces the
    earlier; steps in different thousands share none.  A snapshot never
    goes to [latest_weights.pyt] or [latest_optim.pyt] of the checkpoints
    directory. *)
Theorem snapshot_files_by_thousand paths (s1 s2 : Z) :
  let n1 := named_paths paths (ckpt_name s1) in
  let n2 := named_paths paths (ckpt_name s2) in
  (s1 / 1000 = s2 / 1000 -> n1 = n2) /\
  (s1 / 1000 <> s2 / 1000 ->
   pd_w n1 <> pd_w n2 /\ pd_o n1 <> pd_o n2 /\
   pd_w n1 <> pd_o n2 /\ pd_o n1 <> pd_w n2) /\
  pd_w n1 <> joinpath (voc_checkpoints paths) "latest_weights.pyt" /\
  pd_w n1 <> joinpath (voc_checkpoints paths) "latest_optim.pyt" /\
  pd_o n1 <> joinpath (voc_checkpoints paths) "latest_weights.pyt" /\
  pd_o n1 <> joinpath (voc_checkpoints paths) "latest_optim.pyt".
Proof.
  intros n1 n2. subst n1 n2. unfold named_paths; cbn [pd_w pd_o].
  split; [|split].
  - intros E. unfold ckpt_name. by rewrite E.
  - intros Hne.
    repeat split; intros E; apply joinpath_inj in E.
    + apply append_same_length in E as [E _]; [|reflexivity].
      by apply ckpt_name_inj in E.
    + apply append_same_length in E as [E _]; [|reflexivity].
      by apply ckpt_name_inj in E.
    + assert (E' : (ckpt_name s1 +:+ "_w") +:+ "eights.pyt"
                   = ckpt_name s2 +:+ "_optim.pyt").
      { rewrite <- E. by rewrite string_append_assoc. }
      by apply append_same_length in E' as [_ ?].
    + assert (E' : ckpt_name s1 +:+ "_optim.pyt"
                   = (ckpt_name s2 +:+ "_w") +:+ "eights.pyt").
      { rewrite E. by rewrite string_append_assoc. }
      by apply append_same_length in E' as [_ ?].
  - repeat split; intros E; apply joinpath_inj in E;
      unfold ckpt_name in E; discriminate.
Qed.

End CheckpointComposition.

Section TrainingSteps.

Context {W O float : Type} {collab : Collaborators W O float}.
Abbreviation World := (World W O float).
Abbreviation M := (M W O float).
Implicit Types (w : World) (hp : HParams float) (b : Batch).

(** X11: in every mode the target reaches the loss function with one
    trailing dimension added; it is cast to floating point in ['MOL'] mode
    only, and the prediction is changed in ['RAW'] mode only.  The
    preparation raises exactly when the mode is ['RAW'] and the prediction
    has fewer than three dimensions. *)
Theorem loss_inputs_all_modes (md : string) (y_hat y : Tensor) :
  match loss_inputs md y_hat y with
  | Return (p, t) =>
      shape t = shape y ++ [1] /\
      dt t = (if String.eqb md "MOL" then Float32 else dt y) /\
      (md <> "RAW" -> p = y_hat) /\
      (md = "RAW" ->
       dt p = dt y_hat /\
       length (shape p) = S (length (shape y_hat)) /\
       (3 <= length (shape y_hat))%nat)
  | Raise e =>
      e = IndexError /\ md = "RAW" /\ (length (shape y_hat) < 3)%nat
  end.
Proof.
  unfold loss_inputs.
  destruct (String.eqb_spec md "RAW") as [->|Hr].
  - unfold transpose.
    destruct (shape y_hat !! 1%nat) as [a|] eqn:E1;
      [destruct (shape y_hat !! 2%nat) as [c|] eqn:E2|]; simpl.
    + repeat split; try done.
      * rewrite length_app, !length_insert. simpl. lia.
      * apply lookup_lt_Some in E2. lia.
    + apply lookup_ge_None in E2. repeat split; try done. lia.
    + apply lookup_ge_None in E1. repeat split; try done. lia.
  - destruct (String.eqb_spec md "MOL") as [->|Hm]; simpl;
      repeat split; done.
Qed.

(** X12: with [voc_checkpoint_every] set to zero the first batch already
    fails: the optimizer update is applied and then the interval test raises
    [ZeroDivisionError]; no checkpoint is written. *)
Theorem zero_checkpoint_interval hp cuda on_cuda paths loss_func e epochs
    total_iters i b w y_hat y :
  voc_checkpoint_every hp = 0 ->
  loss_inputs (mode (model w))
    (net_forward (weights (model w)) (bx b) (bm b)) (by_ b)
    = Return (y_hat, y) ->
  batch_body hp cuda on_cuda paths loss_func e epochs total_iters (i, b) w =
  (Raise ZeroDivisionError,
   after_batch hp (on_cuda && (1 <? device_count cuda)) loss_func y_hat y w).
Proof.
  intros Hz El. unfold batch_body, bind. simpl.
  rewrite (optimise_batch_run _ _ _ _ _ _ _ _ El).
  unfold periodic_checkpoint, bind, lift, pymod. by rewrite Hz.
Qed.

(** X13: the periodic checkpoint.  At a step that is not a multiple of
    [voc_checkpoint_every] nothing is generated or written, only the progress
    line is streamed.  At a multiple, if the call returns, both files of the
    snapshot [wave_step<step // 1000>K] hold the model and optimizer in
    memory and the latest pair is fully present. *)
Theorem periodic_checkpoint_on_schedule hp paths e epochs i total_iters st w :
  voc_checkpoint_every hp <> 0 ->
  (st mod voc_checkpoint_every hp <> 0 ->
   periodic_checkpoint hp paths e epochs i total_iters st w =
   (Return tt,
    {| fs := fs w; model := model w; optimizer := optimizer w;
       trace := trace w ++ [EvStream e epochs i total_iters (st / 1000)] |})) /\
  (st mod voc_checkpoint_every hp = 0 ->
   forall w',
     periodic_checkpoint hp paths e epochs i total_iters st w
       = (Return tt, w') ->
     let npd := named_paths paths (ckpt_name st) in
     fs w' !! pd_w npd
       = Some (WeightsFile (step (model w)) (weights (model w))) /\
     fs w' !! pd_o npd = Some (OptimFile (optimizer w)) /\
     num_exist (fs w') (latest_paths paths) = 2 /\
     In (EvGenTestset (voc_output paths)) (trace w')).
Proof.
  intros Hz. unfold periodic_checkpoint. unfold bind at 1. unfold lift, pymod.
  destruct (Z.eqb_spec (voc_checkpoint_every hp) 0); [contradiction|].
  simpl. split; intros Hm.
  - destruct (Z.eqb_spec (st mod voc_checkpoint_every hp) 0);
      [contradiction|].
    reflexivity.
  - rewrite Hm. simpl. intros w' E.
    set (wg := {| fs := fs w; model := model w; optimizer := optimizer w;
                  trace := trace w ++ [EvGenTestset (voc_output paths)] |}).
    assert (E' : match save_checkpoint paths (Some (ckpt_name st)) true wg
                 with
                 | (Return _, w1) =>
                     emit (EvStream e epochs i total_iters (st / 1000)) w1
                 | (Raise ex, w1) => (Raise ex, w1)
                 end = (Return tt, w')) by exact E.
    clear E.
    destruct (save_checkpoint paths (Some (ckpt_name st)) true wg)
      as [[[]|ex] w1] eqn:Es; [|discriminate].
    injection E' as <-.
    pose proof (save_checkpoint_returns _ _ _ _ _ Es) as (_ & _ & Hn).
    destruct (Hn eq_refl) as [_ ->]. simpl.
    pose proof (named_paths_distinct paths (ckpt_name st)) as Hd.
    unfold saved at 1 3. split; [|split; [|split]].
    + rewrite lookup_insert_ne by done. by rewrite lookup_insert_eq.
    + by rewrite lookup_insert_eq.
    + apply num_exist_saved_mono, num_exist_saved.
    + apply in_or_app. left. apply in_or_app. left.
      apply in_or_app. left. apply in_or_app. right. simpl. auto.
Qed.

Lemma for_each_last {A} (Q : World -> Prop) (l : list A)
    (body : A -> M unit) :
  l <> [] ->
  (forall a w w', body a w = (Return tt, w') -> Q w') ->
  forall w w', for_each l body w = (Return tt, w') -> Q w'.
Proof.
  intros Hne Hb. induction l as [|a l IH]; [done|].
  intros w w' E. simpl in E. unfold bind in E.
  destruct (body a w) as [[[]|ex] w1] eqn:Eb; [|discriminate].
  destruct l as [|a' l'].
  - simpl in E. injection E as <-. eauto.
  - apply (IH ltac:(done) _ _ E).
Qed.

(** Every completed epoch ends with the latest checkpoint up to date. *)
Lemma epoch_body_latest_current hp cuda on_cuda paths loss_func train_set
    epochs total_iters e w w' :
  voc_latest_weights paths <> voc_latest_optim paths ->
  epoch_body hp cuda on_cuda paths loss_func train_set epochs total_iters e w
    = (Return tt, w') ->
  latest_current paths w'.
Proof.
  intros Hne E. unfold epoch_body in E. unfold bind at 1 in E.
  destruct (for_each _ _ w) as [[[]|ex] ws]; [|discriminate].
  unfold bind at 1 in E.
  destruct (save_checkpoint paths None true ws) as [[[]|ex] w2] eqn:Es;
    [|discriminate].
  destruct (save_checkpoint_stores _ _ _ _ _ Es Hne) as (Hw & Ho & Hm & Hop).
  unfold bind, print, emit in E. simpl in E. injection E as <-.
  unfold latest_current. simpl in *. by rewrite Hm, Hop.
Qed.

(** X14: when [voc_train_loop] returns and there were steps left to train
    ([get_step() <= total_steps]), the latest checkpoint on disk is the
    state in memory: restoring it reproduces the model and optimizer the run
    ended with, so that a resumed run continues exactly where this one
    stopped. *)
Theorem voc_train_loop_leaves_latest_current hp cuda on_cuda paths loss_func
    train_set test_set new_lr total_steps w w' :
  voc_train_loop hp cuda on_cuda paths loss_func train_set test_set new_lr
    total_steps w = (Return tt, w') ->
  get_step (model w) <= total_steps ->
  voc_latest_weights paths <> voc_latest_optim paths ->
  latest_current paths w' /\
  forall create_if_missing w2,
    fs w2 = fs w' -> mode (model w2) = mode (model w') ->
    let r := restore_checkpoint paths None create_if_missing w2 in
    fst r = Return tt /\ model (snd r) = model w' /\
    optimizer (snd r) = optimizer w'.
Proof.
  intros E Hs Hne. rewrite voc_train_loop_run in E.
  destruct (voc_epochs total_steps (get_step (model w))
              (Z.of_nat (length train_set))) as [epochs|ex] eqn:Ee;
    [|discriminate].
  apply voc_epochs_returns in Ee as [Hn ->]; [|lia].
  assert (L : latest_current paths w').
  { refine (for_each_last (latest_current paths) _ _ _ _ _ _ E).
    - assert (0 <= (total_steps - get_step (model w))
                     / Z.of_nat (length train_set))
        by (apply Z.div_pos; lia).
      unfold range.
      destruct (Z.to_nat _) eqn:En; [lia|]. simpl. discriminate.
    - intros a u u' Hu. by apply epoch_body_latest_current in Hu. }
  split; [exact L|].
  intros create_if_missing w2 Hf Hmode. destruct L as [Lw Lo].
  rewrite <- Hf in Lw, Lo. simpl.
  rewrite (restore_checkpoint_loads paths None create_if_missing w2 _ _ _
             Lw Lo).
  simpl. rewrite Hmode. by destruct (model w').
Qed.

(** X15: [main] checks the factorisation of the hop length after it has
    built the model and before it touches any checkpoint.  With upsample
    factors that fit [int64] and whose product, as [int64] arithmetic
    computes it (wrapping around), is not [hop_length], or with no factors
    at all, it raises [AssertionError], respectively [IndexError]; by then
    it has printed two lines and built the model, and no file has been read
    or written. *)
Theorem main_checks_hop_length_first args hp cuda paths w on_cuda :
  select_device (force_cpu args) cuda
    (default (voc_batch_size hp) (arg_batch_size args)) w
    = (Return on_cuda, w) ->
  forallb is_int64 (voc_upsample_factors hp) = true ->
  cumprod_last (voc_upsample_factors hp) <> Return (hop_length hp) ->
  exists e,
    main args hp cuda paths w =
    (Raise e,
     announced (if on_cuda then "cuda" else "cpu")
       {| step := 0; mode := voc_mode hp; weights := init_weights |} w) /\
    (voc_upsample_factors hp = [] -> e = IndexError) /\
    (voc_upsample_factors hp <> [] -> e = AssertionError).
Proof.
  intros Hd _ Hc. unfold main. unfold bind at 1. rewrite Hd.
  unfold announced, print, emit, set_model, bind, lift; simpl.
  destruct (cumprod_last (voc_upsample_factors hp)) as [p|ex] eqn:Ep; simpl.
  - destruct (Z.eqb_spec p (hop_length hp)) as [->|Hp]; [contradiction|].
    simpl. eexists. split; [rewrite <- app_assoc; reflexivity|].
    split; [|done].
    intros Hnil. rewrite Hnil in Ep. discriminate.
  - eexists. split; [rewrite <- app_assoc; reflexivity|].
    unfold cumprod_last in Ep.
    destruct (voc_upsample_factors hp); [|discriminate].
    injection Ep as <-. split; done.
Qed.

End TrainingSteps.

(** * The statements at concrete inputs *)

Module Runs.
Import Sample.

(** Exactly one latest file on disk and no [create_if_missing]: the error is
    the very one raised when no file is there at all. *)
Lemma restore_half_checkpoint_reports_missing :
  num_exist (fs w_one) (identity_paths paths None) = 1 /\
  num_exist (fs w_none) (identity_paths paths None) = 0 /\
  fst (restore_checkpoint paths None false w_one) =
    Raise (FileNotFoundError (missing_msg "latest")) /\
  fst (restore_checkpoint paths None false w_one) =
    fst (restore_checkpoint paths None false w_none).
Proof. vm_compute. repeat split. Qed.

(** Exactly one latest file on disk: [save_checkpoint] raises and writes
    nothing. *)
Lemma save_half_checkpoint_raises :
  num_exist (fs w_one) (latest_paths paths) = 1 /\
  save_checkpoint paths None true w_one =
    (Raise (FileNotFoundError (broken_msg "latest")), w_one).
Proof. vm_compute. repeat split. Qed.

(** 1000 remaining steps at 500 iterations per epoch: three epochs, not the
    ceiling 2; a run with 4 remaining steps at 2 iterations per epoch goes
    through three epochs as well. *)
Lemma voc_epochs_not_ceiling :
  voc_epochs 1000 0 500 = Return 3 /\
  ceil_div (1000 - 0) 500 = 2 /\
  (let run := voc_train_loop hp two_gpus false paths cross_entropy
                [a_batch; a_batch] [] (Some 1) 11 w_none in
   get_step (model w_none) = 7 /\
   fst run = Return tt /\
   epochs_logged (trace (snd run)) = 3%nat /\
   ceil_div (11 - 7) 2 = 2).
Proof. vm_compute. repeat split. Qed.

(** The first of two consecutive saves already fails when one latest file is
    missing. *)
Lemma save_twice_from_half_checkpoint_fails :
  num_exist (fs w_one) (latest_paths paths) = 1 /\
  fst (save_checkpoint paths None false w_one) <> Return tt.
Proof. vm_compute. split; [reflexivity | discriminate]. Qed.

(** A call of [save_checkpoint] that writes no file at all, named or
    latest. *)
Lemma save_half_latest_writes_nothing :
  let w' := snd (save_checkpoint paths (Some "snap") false w_one) in
  write_events (trace w') = [] /\ fs w' = fs w_one /\
  fs w' !! voc_latest_optim paths = None.
Proof. vm_compute. repeat split. Qed.

Lemma coherent_sample (name : option string) : coherent paths name.
Proof. by apply coherent_latest_in_checkpoints. Qed.


Lemma restore_checkpoint_one_of_two_witness :
  num_exist (fs w_one) (identity_paths paths None) = 1 /\
  restore_checkpoint paths None false w_one
    = (Raise (FileNotFoundError (missing_msg "latest")), w_one) /\
  restore_checkpoint paths None true w_one
    = (Raise (FileNotFoundError (broken_msg "latest")), w_one) /\
  num_exist (fs w_named_one) (identity_paths paths (Some "snap")) = 1 /\
  fst (restore_checkpoint paths (Some "snap") false w_named_one)
    = Raise (FileNotFoundError (missing_msg "named")) /\
  fst (restore_checkpoint paths (Some "snap") true w_named_one)
    = Raise (FileNotFoundError (broken_msg "named")).
Proof.
  assert (E : num_exist (fs w_one) (identity_paths paths None) = 1)
    by (vm_compute; reflexivity).
  assert (En : num_exist (fs w_named_one)
                 (identity_paths paths (Some "snap")) = 1)
    by (vm_compute; reflexivity).
  split; [exact E|]. split; [|split; [|split; [exact En|split]]].
  - exact (proj1 (restore_checkpoint_one_of_two paths None false w_one E
                    (coherent_sample None))).
  - exact (proj1 (restore_checkpoint_one_of_two paths None true w_one E
                    (coherent_sample None))).
  - rewrite (proj1 (restore_checkpoint_one_of_two paths (Some "snap") false
                      w_named_one En (coherent_sample (Some "snap")))).
    reflexivity.
  - rewrite (proj1 (restore_checkpoint_one_of_two paths (Some "snap") true
                      w_named_one En (coherent_sample (Some "snap")))).
    vm_compute. reflexivity.
Defined.

Lemma save_checkpoint_one_of_two_witness :
  num_exist (fs w_one) (latest_paths paths) = 1 /\
  save_checkpoint paths (Some "snap") true w_one
    = (Raise (FileNotFoundError (broken_msg "latest")), w_one) /\
  num_exist (fs w_named_one) (identity_paths paths (Some "snap")) = 1 /\
  exists s w',
    save_checkpoint paths (Some "snap") true w_named_one
      = (Raise (FileNotFoundError (broken_msg s)), w') /\
    fs w' !! pd_w (identity_paths paths (Some "snap")) = None.
Proof.
  assert (E : num_exist (fs w_one) (latest_paths paths) = 1)
    by (vm_compute; reflexivity).
  assert (En : num_exist (fs w_named_one)
                 (identity_paths paths (Some "snap")) = 1)
    by (vm_compute; reflexivity).
  split; [exact E|]. split.
  - exact (proj1 (save_checkpoint_one_of_two paths (Some "snap") true w_one)
             E).
  - split; [exact En|].
    destruct (proj2 (save_checkpoint_one_of_two paths (Some "snap") true
                       w_named_one) En (coherent_sample (Some "snap")))
      as (s & w' & R & Hw & _).
    exists s, w'. split; [exact R|]. rewrite Hw. vm_compute. reflexivity.
Defined.

Lemma voc_epochs_floor_plus_one_witness :
  0 < 2 /\
  voc_epochs 11 7 2 = Return 3 /\
  epochs_logged
    (trace (snd (voc_train_loop hp two_gpus false paths cross_entropy
                   [a_batch; a_batch] [] (Some 1) 11 w_none))) = 3%nat.
Proof.
  assert (H : 0 < 2) by lia.
  destruct (voc_epochs_floor_plus_one (collab := collaborators) 11 7 2 H)
    as (E & _ & L).
  split; [exact H|]. split; [exact E|].
  exact (L hp two_gpus false paths cross_entropy [a_batch; a_batch] []
           (Some 1) w_none eq_refl eq_refl
           ltac:(vm_compute; reflexivity)).
Defined.

Lemma nan_grad_norm_tolerated_witness :
  exists w',
    optimise_batch hp two_gpus true cross_entropy a_batch w_both
      = (Return 8, w') /\
    get_step (model w') = 8 /\
    trace w' = [EvForward true;
                EvLoss cross_entropy
                  {| shape := [16; 512; 100; 1]; dt := Float32 |}
                  {| shape := [16; 100; 1]; dt := Int64 |};
                EvZeroGrad; EvBackward; EvClipGradNorm;
                EvPrint "grad_norm was NaN!"; EvOptimStep].
Proof.
  destruct (nan_grad_norm_tolerated (collab := collaborators) hp two_gpus true paths cross_entropy
              1 3 2 1 a_batch w_both (Some 4)
              {| shape := [16; 512; 100; 1]; dt := Float32 |}
              {| shape := [16; 100; 1]; dt := Int64 |}
              eq_refl ltac:(vm_compute; reflexivity)
              ltac:(vm_compute; reflexivity))
    as (w' & R & Hs & _ & _ & _ & Ht & _).
  exists w'. split; [exact R|]. split; [exact Hs|exact Ht].
Defined.

Lemma batch_size_checked_at_startup_witness :
  33 mod 2 <> 0 /\
  main (args 33) hp two_gpus paths w_none
    = (Raise (ValueError "`batch_size` must be evenly divisible by n_gpus!"),
       w_none).
Proof.
  assert (H : 33 mod 2 <> 0) by (vm_compute; discriminate).
  split; [exact H|].
  exact (proj1 (batch_size_checked_at_startup (collab := collaborators) (args 33) hp two_gpus paths
                  w_none) eq_refl eq_refl ltac:(simpl; lia) H).
Defined.

Lemma loss_call_shapes_witness :
  loss_inputs "RAW" (net_forward 2 (bx a_batch) (bm a_batch)) (by_ a_batch)
    = Return ({| shape := [16; 512; 100; 1]; dt := Float32 |},
              {| shape := [16; 100; 1]; dt := Int64 |}) /\
  loss_inputs "MOL" (net_forward 3 (bx a_batch) (bm a_batch)) (by_ a_batch)
    = Return ({| shape := [16; 100; 512]; dt := Float32 |},
              {| shape := [16; 100; 1]; dt := Float32 |}).
Proof.
  split.
  - exact (proj1 (proj1 (loss_call_shapes (collab := collaborators) hp two_gpus true cross_entropy
                           a_batch w_both 16 100 512 eq_refl eq_refl)
                    eq_refl)).
  - exact (proj1 (proj2 (loss_call_shapes (collab := collaborators) hp two_gpus true
                           discretized_mix_logistic_loss
                           a_batch w_mol 16 100 512 eq_refl eq_refl)
                    eq_refl)).
Defined.

Lemma save_checkpoint_twice_witness :
  num_exist (fs w_none) (latest_paths paths) <> 1 /\
  exists w1 w2,
    save_checkpoint paths None true w_none = (Return tt, w1) /\
    save_checkpoint paths None true w1 = (Return tt, w2) /\
    num_exist (fs w2) (latest_paths paths) = 2 /\
    get_step (model w2) = 7.
Proof.
  assert (H : num_exist (fs w_none) (latest_paths paths) <> 1)
    by (vm_compute; discriminate).
  split; [exact H|].
  destruct (save_checkpoint_twice paths None true w_none eq_refl H)
    as (w1 & w2 & R1 & R2 & _ & N2 & _ & _ & _ & S).
  exists w1, w2. split; [exact R1|]. split; [exact R2|].
  split; [exact N2|]. rewrite S. reflexivity.
Defined.

Lemma save_checkpoint_latest_first_witness :
  num_exist (fs w_none) (latest_paths paths) <> 1 /\
  write_events
    (trace (snd (save_checkpoint paths (Some "snap") true w_none))) =
    [EvModelSave (voc_latest_weights paths);
     EvTorchSave (voc_latest_optim paths);
     EvModelSave (pd_w (named_paths paths "snap"));
     EvTorchSave (pd_o (named_paths paths "snap"))] /\
  fs (snd (restore_checkpoint paths (Some "snap") true w_both))
    !! voc_latest_optim paths = Some (OptimFile an_adam).
Proof.
  assert (H : num_exist (fs w_none) (latest_paths paths) <> 1)
    by (vm_compute; discriminate).
  assert (Hb : num_exist (fs w_both) (latest_paths paths) <> 1)
    by (vm_compute; discriminate).
  split; [exact H|]. split.
  - rewrite (proj1 (proj2 (save_checkpoint_latest_first paths (Some "snap")
                             true w_none H))).
    vm_compute. reflexivity.
  - exact (proj1 (proj2 (proj2 (proj2
             (save_checkpoint_latest_first paths (Some "snap") true w_both
                Hb)) eq_refl ltac:(vm_compute; reflexivity) (coherent_sample (Some "snap"))))).
Defined.

Lemma save_checkpoint_not_atomic_witness :
  num_exist (fs w_named_one) (named_paths paths "snap") = 1 /\
  fs w_named_one !! voc_latest_optim paths
    = Some (OptimFile {| lr := Some 2; opt_state := 9 |}) /\
  exists w',
    save_checkpoint paths (Some "snap") true w_named_one
      = (Raise (FileNotFoundError (broken_msg "named")), w') /\
    fs w' !! voc_latest_optim paths = Some (OptimFile an_adam).
Proof.
  assert (En : num_exist (fs w_named_one) (named_paths paths "snap") = 1)
    by (vm_compute; reflexivity).
  assert (El : num_exist (fs w_named_one) (latest_paths paths) <> 1)
    by (vm_compute; discriminate).
  split; [exact En|]. split; [vm_compute; reflexivity|].
  destruct (save_checkpoint_not_atomic paths (Some "snap") true w_named_one
              eq_refl (coherent_sample (Some "snap")) El En)
    as (w' & R & _ & _ & _ & Ho & _).
  exists w'. split; [exact R | exact Ho].
Defined.

End Runs.

(** * The further properties at concrete inputs *)

Module MoreRuns.
Import Sample Fixtures.

Lemma latest_files_differ :
  voc_latest_weights paths <> voc_latest_optim paths.
Proof. vm_compute. discriminate. Qed.

Lemma save_restore_round_trip_witness :
  let w1 := snd (save_checkpoint paths None true w_none) in
  model (snd (restore_checkpoint paths None false (blank (fs w1))))
    = a_model /\
  optimizer (snd (restore_checkpoint paths None false (blank (fs w1))))
    = an_adam.
Proof.
  intros w1.
  rewrite (save_restore_round_trip paths None true false w_none w1
             (blank (fs w1)) ltac:(vm_compute; reflexivity)
             latest_files_differ eq_refl).
  split; reflexivity.
Defined.

Lemma restore_checkpoint_read_only_witness :
  fs (snd (restore_checkpoint paths None false w_both)) = fs w_both /\
  fs (snd (restore_checkpoint paths None false w_one)) = fs w_one.
Proof.
  split.
  - exact (proj1 (restore_checkpoint_read_only paths None false w_both
                    (or_introl eq_refl))).
  - exact (proj1 (restore_checkpoint_read_only paths None false w_one
                    (or_introl eq_refl))).
Defined.

Lemma checkpoint_complete_on_return_witness :
  let w1 := snd (save_checkpoint paths (Some "snap") true w_none) in
  num_exist (fs w1) (latest_paths paths) = 2 /\
  num_exist (fs w1) (named_paths paths "snap") = 2 /\
  num_exist (fs (snd (restore_checkpoint paths None true w_none)))
    (identity_paths paths None) = 2.
Proof.
  intros w1.
  destruct (proj1 (checkpoint_complete_on_return paths (Some "snap") w_none
                     w1) true ltac:(vm_compute; reflexivity)) as [Hl Hn].
  split; [exact Hl|]. split; [exact (Hn eq_refl)|].
  exact (proj2 (checkpoint_complete_on_return paths None w_none
                  (snd (restore_checkpoint paths None true w_none))) true
           ltac:(vm_compute; reflexivity)).
Defined.

Lemma save_checkpoint_touches_only_its_files_witness :
  fs (snd (save_checkpoint paths None true w_snap))
    !! pd_w (named_paths paths "snap") = Some (WeightsFile 100 42).
Proof.
  rewrite (proj2 (save_checkpoint_touches_only_its_files paths None true
                    w_snap (pd_w (named_paths paths "snap")))
             ltac:(vm_compute; discriminate) ltac:(vm_compute; discriminate)
             ltac:(discriminate)).
  vm_compute. reflexivity.
Defined.

Lemma voc_train_loop_updates_witness :
  fst short_run = Return tt /\
  updates (trace (snd short_run)) - updates (trace w_none) = 6.
Proof.
  split; [vm_compute; reflexivity|].
  destruct (voc_train_loop_updates (collab := collaborators) hp two_gpus
              false paths cross_entropy [a_batch; a_batch] [] (Some 1) 11
              w_none (snd short_run) ltac:(vm_compute; reflexivity))
    as (_ & N & _).
  rewrite N. reflexivity.
Defined.

Lemma voc_train_loop_degenerate_witness :
  voc_train_loop hp two_gpus false paths cross_entropy [] [] (Some 2) 11
    w_none = (Raise ZeroDivisionError, with_lr (Some 2) w_none) /\
  voc_train_loop hp two_gpus false paths cross_entropy [a_batch] [] (Some 2)
    5 w_none = (Return tt, with_lr (Some 2) w_none).
Proof.
  split.
  - exact (proj1 (voc_train_loop_degenerate (collab := collaborators) hp
                    two_gpus false paths cross_entropy [] [] (Some 2) 11
                    w_none) eq_refl).
  - exact (proj2 (voc_train_loop_degenerate (collab := collaborators) hp
                    two_gpus false paths cross_entropy [a_batch] []
                    (Some 2) 5 w_none)
             ltac:(discriminate) ltac:(vm_compute; reflexivity)).
Defined.

Lemma restore_then_save_keeps_files_witness :
  exists w1 w2,
    restore_checkpoint paths None false w_both = (Return tt, w1) /\
    save_checkpoint paths None true w1 = (Return tt, w2) /\
    fs w2 = fs w_both.
Proof.
  destruct (restore_then_save_keeps_files paths None false true w_both 4 2
              {| lr := Some 2; opt_state := 9 |} eq_refl latest_files_differ
              ltac:(vm_compute; reflexivity) ltac:(vm_compute; reflexivity))
    as (w1 & w2 & R & S & F & _).
  exists w1, w2. auto.
Defined.

Lemma restore_named_then_save_copies_witness :
  fs w_snap !! voc_latest_weights paths = Some (WeightsFile 4 2) /\
  exists w1 w2,
    restore_checkpoint paths (Some "snap") false w_snap = (Return tt, w1) /\
    save_checkpoint paths None true w1 = (Return tt, w2) /\
    fs w2 !! voc_latest_weights paths = Some (WeightsFile 100 42).
Proof.
  split; [vm_compute; reflexivity|].
  destruct (restore_named_then_save_copies paths (Some "snap") false true
              w_snap 100 42 {| lr := Some 3; opt_state := 8 |} eq_refl
              latest_files_differ ltac:(vm_compute; discriminate)
              ltac:(vm_compute; reflexivity) ltac:(vm_compute; reflexivity))
    as (w1 & w2 & R & S & Hw & _).
  exists w1, w2. auto.
Defined.

Lemma snapshot_files_by_thousand_witness :
  named_paths paths (ckpt_name 1000) = named_paths paths (ckpt_name 1500) /\
  pd_w (named_paths paths (ckpt_name 500))
    <> pd_w (named_paths paths (ckpt_name 1500)).
Proof.
  split.
  - exact (proj1 (snapshot_files_by_thousand paths 1000 1500) eq_refl).
  - exact (proj1 (proj1 (proj2 (snapshot_files_by_thousand paths 500 1500))
                    ltac:(vm_compute; discriminate))).
Defined.

Lemma zero_checkpoint_interval_witness :
  fst (batch_body hp_no_interval two_gpus true paths cross_entropy 1 3 2
         (1, a_batch) w_both) = Raise ZeroDivisionError /\
  updates (trace (snd (batch_body hp_no_interval two_gpus true paths
                         cross_entropy 1 3 2 (1, a_batch) w_both))) = 1.
Proof.
  rewrite (zero_checkpoint_interval (collab := collaborators) hp_no_interval
             two_gpus true paths cross_entropy 1 3 2 1 a_batch w_both
             {| shape := [16; 512; 100; 1]; dt := Float32 |}
             {| shape := [16; 100; 1]; dt := Int64 |}
             eq_refl ltac:(vm_compute; reflexivity)).
  split; [reflexivity | vm_compute; reflexivity].
Defined.

Lemma periodic_checkpoint_on_schedule_witness :
  fs (snd (periodic_checkpoint hp paths 1 3 1 2 8 w_none)) = fs w_none /\
  fs (snd (periodic_checkpoint hp paths 1 3 1 2 1000 w_none))
    !! pd_w (named_paths paths "wave_step1K") = Some (WeightsFile 7 3).
Proof.
  assert (H : voc_checkpoint_every hp <> 0) by (vm_compute; discriminate).
  split.
  - rewrite (proj1 (periodic_checkpoint_on_schedule (float := float) hp paths
                      1 3 1 2 8 w_none H)
               ltac:(vm_compute; discriminate)).
    reflexivity.
  - exact (proj1 (proj2 (periodic_checkpoint_on_schedule (float := float) hp
                           paths 1 3 1 2 1000 w_none H)
                    ltac:(vm_compute; reflexivity)
                    (snd (periodic_checkpoint hp paths 1 3 1 2 1000 w_none))
                    ltac:(vm_compute; reflexivity))).
Defined.

Lemma voc_train_loop_leaves_latest_current_witness :
  fst short_run = Return tt /\
  latest_current paths (snd short_run) /\
  get_step (model (snd short_run)) = 13.
Proof.
  split; [vm_compute; reflexivity|].
  split; [|vm_compute; reflexivity].
  exact (proj1 (voc_train_loop_leaves_latest_current
                  (collab := collaborators) hp two_gpus false paths
                  cross_entropy [a_batch; a_batch] [] (Some 1) 11 w_none
                  (snd short_run) ltac:(vm_compute; reflexivity)
                  ltac:(vm_compute; discriminate) latest_files_differ)).
Defined.

(** The product of the factors wraps around as in [int64]: [2^32 * 2^32]
    is 0, and small products are exact. *)
Lemma cumprod_last_wraps :
  cumprod_last [2 ^ 32; 2 ^ 32] = Return 0 /\
  cumprod_last [5; 5; 11] = Return 275 /\
  cumprod_last [] = Raise IndexError.
Proof. vm_compute. repeat split. Qed.

Lemma main_checks_hop_length_first_witness :
  fst (main args_cpu hp_bad_hop two_gpus paths w_none) = Raise AssertionError
  /\ fs (snd (main args_cpu hp_bad_hop two_gpus paths w_none)) = fs w_none.
Proof.
  destruct (main_checks_hop_length_first (collab := collaborators) args_cpu
              hp_bad_hop two_gpus paths w_none false eq_refl
              ltac:(vm_compute; reflexivity)
              ltac:(vm_compute; discriminate))
    as (e & R & _ & He).
  rewrite R, (He ltac:(discriminate)). split; reflexivity.
Defined.

End MoreRuns.
